(** * pufferd: process supervision layer and workload lifecycle

    A shallow embedding of [environments/standard.go], [environments/tty.go],
    [programs/program.go] and the literal-file-write operation, with the
    properties of the design document stated against it.

    Conventions of the embedding:
    - a Go [error] is [option error] ([None] is [nil]);
    - a pointer or interface that may be [nil] is an [option];
    - what the operating system answers (liveness probes, spawning, writes)
      is read from a record [OS], and every call that reaches the operating
      system is appended to a trace of [Event]s;
    - a Go run-time panic (failed type assertion, write to a nil map, method
      call on a nil interface) is the outcome [Panic]. *)

From Stdlib Require Import ZArith Ascii String DecimalString.
From stdpp Require Import base option list strings gmap fin_maps.

#[local] Set Warnings "-register-all".


(** ** Go values and errors *)

(** [errors.New(msg)] and errors handed back by the operating system or by a
    library; [Error] is the [Error()] method. *)
Inductive error : Type :=
| errors_New (msg : string)
| os_Error (msg : string).

Definition Error (e : error) : string :=
  match e with
  | errors_New msg => msg
  | os_Error msg => msg
  end.

#[global] Instance error_eq_dec : EqDecision error.
Proof. solve_decision. Defined.

(** [interface{}] as it comes out of [encoding/json]: nil, a string, a number,
    a boolean or a nested [map[string]interface{}]. *)
Inductive value : Type :=
| VNil
| VString (s : string)
| VNumber (z : Z)
| VBool (b : bool)
| VMap (m : gmap string value).

(** [v == nil] and [v == ""] on an [interface{}]. *)
Definition is_nil (v : value) : bool :=
  match v with VNil => true | _ => false end.

Definition is_empty_string (v : value) : bool :=
  match v with VString "" => true | _ => false end.

(** A [map[string]interface{}] variable: [None] is the nil map. *)
Definition gomap : Type := option (gmap string value).

(** [m[k]] on a possibly nil map: the zero value [nil] when there is no entry. *)
Definition index (m : gomap) (k : string) : value :=
  match m with
  | Some d => default VNil (d !! k)
  | None => VNil
  end.

(** [strconv.Itoa]. *)
Definition Itoa (n : Z) : string := NilZero.string_of_int (Z.to_int n).

(** ** Outcomes and the state monad of the embedding *)

Inductive outcome (A : Type) : Type :=
| Return (a : A)
| Panic (reason : string).
Arguments Return {A} a.
Arguments Panic {A} reason.

(** ** The operating system as seen by the daemon *)

(** [os.Process]. *)
Record os_Process : Type := { Pid : Z }.

(** The writers a process can be wired to. [MultiWriter] is
    [io.MultiWriter(...)] over the daemon's own standard output, the console
    buffer and the listener hub; [File] is an [*os.File], [File None] being
    the nil pointer. *)
Inductive Target : Type := ToStdout | ToConsoleBuffer | ToWSManager.

Inductive Writer : Type :=
| MultiWriter (targets : list Target)
| Pipe (fd : nat)
| File (f : option nat).

(** [exec.Cmd], with the fields the daemon sets or reads. *)
Record Cmd : Type := {
  Path : string;
  Args : list string;
  Dir : string;
  Env : list string;
  Stdout : option Writer;
  Stderr : option Writer;
  Setctty : bool;
  Setsid : bool;
  Process : option os_Process
}.

(** [exec.Command(cmd, args...)]. *)
Definition exec_Command (cmd : string) (args : list string) : Cmd :=
  {| Path := cmd; Args := cmd :: args; Dir := ""; Env := [];
     Stdout := None; Stderr := None; Setctty := false; Setsid := false;
     Process := None |}.

Definition set_Process (c : Cmd) (p : option os_Process) : Cmd :=
  {| Path := Path c; Args := Args c; Dir := Dir c; Env := Env c;
     Stdout := Stdout c; Stderr := Stderr c; Setctty := Setctty c;
     Setsid := Setsid c; Process := p |}.

Definition set_output (c : Cmd) (w : option Writer) : Cmd :=
  {| Path := Path c; Args := Args c; Dir := Dir c; Env := Env c;
     Stdout := w; Stderr := w; Setctty := Setctty c;
     Setsid := Setsid c; Process := Process c |}.

(** What the operating system and the packages outside this core answer at the
    moment of a call. *)
Record OS : Type := {
  (** [os.FindProcess(pid)] gives a process and no error *)
  findProcess : Z -> bool;
  (** [process.Signal(syscall.Signal(0))] *)
  signal0 : Z -> option error;
  (** [Process.Kill()] *)
  processKill : Z -> option error;
  (** [os.Environ()] *)
  Environ : list string;
  (** [config.Get(key)] *)
  configGet : string -> string;
  (** [Cmd.StdinPipe()]: the pipe, or the error *)
  stdinPipe : Cmd -> nat + error;
  (** [Cmd.Start()]: the pid of the new process, or the error *)
  cmdStart : Cmd -> Z + error;
  (** [pty.Start(cmd)]: the terminal and the pid, or the error *)
  ptyStart : Cmd -> (nat * Z) + error;
  (** [io.WriteString(w, text)] on a writer that is not nil *)
  writeString : Writer -> string -> option error;
  (** [ioutil.WriteFile(path, data, perm)] *)
  ioutilWriteFile : string -> string -> Z -> option error;
  (** [os.RemoveAll(path)] *)
  removeAll : string -> option error;
  (** [utils.JoinPath(a, b)] *)
  JoinPath : string -> string -> string;
  (** [utils.ReplaceTokensInArr(arr, mapping)] *)
  ReplaceTokensInArr : list string -> gmap string value -> list string;
  (** [Save(id)] of package [programs] *)
  programsSave : string -> option error
}.

(** The goroutines the daemon starts. *)
Inductive Goroutine : Type :=
| Reaper          (* mainProcess.Wait(); wait.Done() *)
| CopyAndReap (wrapper : Writer) (tty : option nat).
                  (* io.Copy(wrapper, tty); process.Wait(); wait.Done() *)

(** The calls that leave the daemon, in the order they are made. *)
Inductive Event : Type :=
| EvKill (pid : Z)
| EvRelease (pid : Z)
| EvStdinPipe (c : Cmd)
| EvStart (c : Cmd)
| EvPtyStart (c : Cmd)
| EvGo (g : Goroutine)
| EvWriteString (w : Writer) (text : string)
| EvMkdir (path : string) (perm : Z)
| EvMkdirAll (path : string) (perm : Z)
| EvRemoveAll (path : string)
| EvWriteFile (path : string) (text : string) (perm : Z)
| EvSave (id : string)
| EvLogDebug (msg : string)
| EvLogError (msg : string) (err : option error).

(** A computation over a mutable object of type [S] that may reach the
    operating system: it reads the object and the trace so far and either
    returns a result with the new object and trace, or panics. *)
Definition M (S A : Type) : Type :=
  S -> list Event -> outcome (A * S * list Event).

Definition ret {S A} (a : A) : M S A := fun s tr => Return (a, s, tr).

Definition bind {S A B} (m : M S A) (k : A -> M S B) : M S B :=
  fun s tr =>
    match m s tr with
    | Return (a, s', tr') => k a s' tr'
    | Panic r => Panic r
    end.

#[global] Instance M_ret {S} : MRet (M S) := fun A a => ret a.
#[global] Instance M_bind {S} : MBind (M S) := fun A B k m => bind m k.

Definition get {S} : M S S := fun s tr => Return (s, s, tr).
Definition modify {S} (f : S -> S) : M S unit := fun s tr => Return (tt, f s, tr).
Definition emit {S} (e : Event) : M S unit := fun s tr => Return (tt, s, tr ++ [e]).
Definition panic {S A} (reason : string) : M S A := fun _ _ => Panic reason.

(** Run a computation on a component of a larger object. *)
Definition zoom {S T A} (proj : T -> S) (upd : T -> S -> T) (m : M S A) : M T A :=
  fun t tr =>
    match m (proj t) tr with
    | Return (a, s', tr') => Return (a, upd t s', tr')
    | Panic r => Panic r
    end.

(** [utils.Cache], the console buffer: the chunks written to it so far. *)
Definition Cache : Type := list string.
Definition Cache_Write (c : Cache) (msg : string) : Cache := c ++ [msg].

(** [utils.WebSocketManager], the listener hub: the registered connections. *)
Definition WebSocketManager : Type := list nat.


(** The line terminator written after a command: ["\r"]. *)
Definition CR : string := String "013"%char EmptyString.

(** The line feed: ["\n"]. *)
Definition LF : string := String "010"%char EmptyString.

(** Octal permission bits [0755], [0644] and [0664]. *)
Definition perm_0755 : Z := 493.
Definition perm_0644 : Z := 420.
Definition perm_0664 : Z := 436.

(** ** environments/standard.go: the Direct environment *)

Module Standard.

Record standard : Type := {
  RootDirectory : string;
  ConsoleBuffer : Cache;
  WSManager : WebSocketManager;
  mainProcess : option Cmd;
  stdInWriter : option Writer;
  (** the counter of the [sync.WaitGroup] *)
  wait : Z
}.

Definition set_ConsoleBuffer (b : Cache) (s : standard) : standard :=
  {| RootDirectory := RootDirectory s; ConsoleBuffer := b;
     WSManager := WSManager s; mainProcess := mainProcess s;
     stdInWriter := stdInWriter s; wait := wait s |}.

Definition set_WSManager (m : WebSocketManager) (s : standard) : standard :=
  {| RootDirectory := RootDirectory s; ConsoleBuffer := ConsoleBuffer s;
     WSManager := m; mainProcess := mainProcess s;
     stdInWriter := stdInWriter s; wait := wait s |}.

Definition set_mainProcess (c : option Cmd) (s : standard) : standard :=
  {| RootDirectory := RootDirectory s; ConsoleBuffer := ConsoleBuffer s;
     WSManager := WSManager s; mainProcess := c;
     stdInWriter := stdInWriter s; wait := wait s |}.

Definition set_stdInWriter (w : option Writer) (s : standard) : standard :=
  {| RootDirectory := RootDirectory s; ConsoleBuffer := ConsoleBuffer s;
     WSManager := WSManager s; mainProcess := mainProcess s;
     stdInWriter := w; wait := wait s |}.

Definition set_wait (n : Z) (s : standard) : standard :=
  {| RootDirectory := RootDirectory s; ConsoleBuffer := ConsoleBuffer s;
     WSManager := WSManager s; mainProcess := mainProcess s;
     stdInWriter := stdInWriter s; wait := n |}.

(** An assignment through the pointer [s.mainProcess]. *)
Definition with_cmd (f : Cmd -> Cmd) : M standard unit :=
  s ← get;
  match mainProcess s with
  | Some c => modify (set_mainProcess (Some (f c)))
  | None => panic "nil pointer dereference"
  end.

(** Reading through the pointer [s.mainProcess]. *)
Definition the_cmd : M standard Cmd :=
  s ← get;
  match mainProcess s with
  | Some c => mret c
  | None => panic "nil pointer dereference"
  end.

Section WithOS.
Context (os : OS).

Definition IsRunning (s : standard) : bool :=
  match mainProcess s with
  | Some c =>
      match Process c with
      | Some p =>
          if negb (findProcess os (Pid p)) then false
          else if signal0 os (Pid p) is Some _ then false
          else true
      | None => false
      end
  | None => false
  end.

Definition createWrapper (s : standard) : Writer :=
  if String.eqb (configGet os "forward") "true"
  then MultiWriter [ToStdout; ToConsoleBuffer; ToWSManager]
  else MultiWriter [ToConsoleBuffer; ToWSManager].

Definition ExecuteAsync (cmd : string) (args : list string)
  : M standard (option error) :=
  s ← get;
  if IsRunning s then
    match mainProcess s ≫= Process with
    | Some p =>
        mret (Some (errors_New
          ("A process is already running (" +:+ Itoa (Pid p) +:+ ")")))
    | None => panic "nil pointer dereference"
    end
  else
    modify (set_mainProcess (Some (exec_Command cmd args)));;
    with_cmd (fun c =>
      {| Path := Path c; Args := Args c; Dir := RootDirectory s; Env := Env c;
         Stdout := Stdout c; Stderr := Stderr c; Setctty := Setctty c;
         Setsid := Setsid c; Process := Process c |});;
    with_cmd (fun c =>
      {| Path := Path c; Args := Args c; Dir := Dir c;
         Env := Environ os ++ ["HOME=" +:+ RootDirectory s];
         Stdout := Stdout c; Stderr := Stderr c; Setctty := Setctty c;
         Setsid := Setsid c; Process := Process c |});;
    let wrapper := createWrapper s in
    with_cmd (fun c => set_output c (Some wrapper));;
    c ← the_cmd;
    emit (EvStdinPipe c);;
    let pipe := match stdinPipe os c with inl fd => Some (Pipe fd) | inr _ => None end in
    let err := match stdinPipe os c with inl _ => None | inr e => Some e end in
    (if err is Some _ then emit (EvLogError "Error starting process" err)
     else mret tt);;
    modify (set_stdInWriter pipe);;
    modify (set_wait 0);;
    modify (fun s => set_wait (wait s + 1) s);;
    c ← the_cmd;
    emit (EvStart c);;
    err ← match cmdStart os c with
          | inl pid =>
              with_cmd (fun c => set_Process c (Some {| Pid := pid |}));;
              mret None
          | inr e => mret (Some e)
          end;
    emit (EvGo Reaper);;
    match err with
    | Some e =>
        (if bool_decide (Error e ≠ "exit status 1")
         then emit (EvLogError "Error starting process" err)
         else mret tt);;
        mret err
    | None => mret err
    end.

Definition ExecuteInMainProcess (cmd : string) : M standard (option error) :=
  s ← get;
  if negb (IsRunning s) then
    mret (Some (errors_New "Main process has not been started"))
  else
    match stdInWriter s with
    | Some stdIn =>
        emit (EvWriteString stdIn (cmd +:+ CR));;
        mret (writeString os stdIn (cmd +:+ CR))
    | None => panic "nil pointer dereference"
    end.

Definition Kill : M standard (option error) :=
  s ← get;
  if negb (IsRunning s) then mret None
  else
    match mainProcess s ≫= Process with
    | Some p =>
        emit (EvKill (Pid p));;
        let err := processKill os (Pid p) in
        emit (EvRelease (Pid p));;
        modify (set_mainProcess None);;
        mret err
    | None => panic "nil pointer dereference"
    end.

Definition Create : M standard (option error) :=
  s ← get;
  emit (EvMkdir (RootDirectory s) perm_0755);;
  mret None.

Definition Update : M standard (option error) := mret None.

Definition Delete : M standard (option error) :=
  s ← get;
  emit (EvRemoveAll (RootDirectory s));;
  mret (removeAll os (RootDirectory s)).

Definition GetRootDirectory (s : standard) : string := RootDirectory s.

Definition AddListener (ws : nat) : M standard unit :=
  modify (fun s => set_WSManager (WSManager s ++ [ws]) s).

Definition DisplayToConsole (msg : string) : M standard unit :=
  modify (fun s => set_ConsoleBuffer (Cache_Write (ConsoleBuffer s) msg) s).

End WithOS.
End Standard.

(** ** environments/tty.go: the PTY environment *)

Module Tty.

Record tty : Type := {
  RootDirectory : string;
  ConsoleBuffer : Cache;
  WSManager : WebSocketManager;
  mainProcess : option Cmd;
  stdInWriter : option Writer;
  (** the counter of the [sync.WaitGroup] *)
  wait : Z
}.

Definition set_ConsoleBuffer (b : Cache) (s : tty) : tty :=
  {| RootDirectory := RootDirectory s; ConsoleBuffer := b;
     WSManager := WSManager s; mainProcess := mainProcess s;
     stdInWriter := stdInWriter s; wait := wait s |}.

Definition set_WSManager (m : WebSocketManager) (s : tty) : tty :=
  {| RootDirectory := RootDirectory s; ConsoleBuffer := ConsoleBuffer s;
     WSManager := m; mainProcess := mainProcess s;
     stdInWriter := stdInWriter s; wait := wait s |}.

Definition set_mainProcess (c : option Cmd) (s : tty) : tty :=
  {| RootDirectory := RootDirectory s; ConsoleBuffer := ConsoleBuffer s;
     WSManager := WSManager s; mainProcess := c;
     stdInWriter := stdInWriter s; wait := wait s |}.

Definition set_stdInWriter (w : option Writer) (s : tty) : tty :=
  {| RootDirectory := RootDirectory s; ConsoleBuffer := ConsoleBuffer s;
     WSManager := WSManager s; mainProcess := mainProcess s;
     stdInWriter := w; wait := wait s |}.

Definition set_wait (n : Z) (s : tty) : tty :=
  {| RootDirectory := RootDirectory s; ConsoleBuffer := ConsoleBuffer s;
     WSManager := WSManager s; mainProcess := mainProcess s;
     stdInWriter := stdInWriter s; wait := n |}.

(** An assignment through the pointer [s.mainProcess]. *)
Definition with_cmd (f : Cmd -> Cmd) : M tty unit :=
  s ← get;
  match mainProcess s with
  | Some c => modify (set_mainProcess (Some (f c)))
  | None => panic "nil pointer dereference"
  end.

Section WithOS.
Context (os : OS).

Definition IsRunning (s : tty) : bool :=
  match mainProcess s with
  | Some c =>
      match Process c with
      | Some p =>
          if negb (findProcess os (Pid p)) then false
          else if signal0 os (Pid p) is Some _ then false
          else true
      | None => false
      end
  | None => false
  end.

Definition createWrapper (s : tty) : Writer :=
  if String.eqb (configGet os "forward") "true"
  then MultiWriter [ToStdout; ToConsoleBuffer; ToWSManager]
  else MultiWriter [ToConsoleBuffer; ToWSManager].

(** The two [if err != nil] blocks before [pty.Start] are reached with [err]
    still nil and do nothing. [pty.Start] wires the terminal to the command
    and starts it; the command is the one [s.mainProcess] already points to. *)
Definition ExecuteAsync (cmd : string) (args : list string)
  : M tty (option error) :=
  s ← get;
  if IsRunning s then
    match mainProcess s ≫= Process with
    | Some p =>
        mret (Some (errors_New
          ("A process is already running (" +:+ Itoa (Pid p) +:+ ")")))
    | None => panic "nil pointer dereference"
    end
  else
    let process := exec_Command cmd args in
    let process :=
      {| Path := Path process; Args := Args process; Dir := RootDirectory s;
         Env := Environ os ++ ["HOME=" +:+ RootDirectory s];
         Stdout := Stdout process; Stderr := Stderr process;
         Setctty := Setctty process; Setsid := Setsid process;
         Process := Process process |} in
    let wrapper := createWrapper s in
    modify (set_wait 0);;
    modify (fun s => set_wait (wait s + 1) s);;
    let process :=
      {| Path := Path process; Args := Args process; Dir := Dir process;
         Env := Env process; Stdout := Stdout process;
         Stderr := Stderr process; Setctty := true; Setsid := true;
         Process := Process process |} in
    modify (set_mainProcess (Some process));;
    emit (EvPtyStart process);;
    r ← match ptyStart os process with
        | inl (fd, pid) =>
            with_cmd (fun c =>
              set_Process (set_output c (Some (File (Some fd))))
                          (Some {| Pid := pid |}));;
            mret (Some fd, None)
        | inr e => mret (None, Some e)
        end;
    let tty := r.1 in
    let err := r.2 in
    modify (set_stdInWriter (Some (File tty)));;
    emit (EvGo (CopyAndReap wrapper tty));;
    (if err is Some _ then emit (EvLogError "Error starting process" err)
     else mret tt);;
    mret err.

Definition ExecuteInMainProcess (cmd : string) : M tty (option error) :=
  s ← get;
  if negb (IsRunning s) then
    mret (Some (errors_New "Main process has not been started"))
  else
    match stdInWriter s with
    | Some stdIn =>
        emit (EvWriteString stdIn (cmd +:+ CR));;
        mret (writeString os stdIn (cmd +:+ CR))
    | None => panic "nil pointer dereference"
    end.

Definition Kill : M tty (option error) :=
  s ← get;
  if negb (IsRunning s) then mret None
  else
    match mainProcess s ≫= Process with
    | Some p =>
        emit (EvKill (Pid p));;
        let err := processKill os (Pid p) in
        emit (EvRelease (Pid p));;
        modify (set_mainProcess None);;
        mret err
    | None => panic "nil pointer dereference"
    end.

Definition Create : M tty (option error) :=
  s ← get;
  emit (EvMkdir (RootDirectory s) perm_0755);;
  mret None.

Definition Update : M tty (option error) := mret None.

Definition Delete : M tty (option error) :=
  s ← get;
  emit (EvRemoveAll (RootDirectory s));;
  mret (removeAll os (RootDirectory s)).

Definition GetRootDirectory (s : tty) : string := RootDirectory s.

Definition AddListener (ws : nat) : M tty unit :=
  modify (fun s => set_WSManager (WSManager s ++ [ws]) s).

Definition DisplayToConsole (msg : string) : M tty unit :=
  modify (fun s => set_ConsoleBuffer (Cache_Write (ConsoleBuffer s) msg) s).

End WithOS.
End Tty.

(** ** The Environment interface *)

Module Environments.

(** An [environments.Environment] value: one of the two implementations. *)
Inductive Environment : Type :=
| Direct (s : Standard.standard)
| PTY (t : Tty.tty).

(** Method dispatch on the interface. *)
Definition dispatch {A} (ms : M Standard.standard A) (mt : M Tty.tty A)
  : M Environment A :=
  fun e tr =>
    match e with
    | Direct s =>
        match ms s tr with
        | Return (a, s', tr') => Return (a, Direct s', tr')
        | Panic r => Panic r
        end
    | PTY t =>
        match mt t tr with
        | Return (a, t', tr') => Return (a, PTY t', tr')
        | Panic r => Panic r
        end
    end.

Section WithOS.
Context (os : OS).

Definition IsRunning (e : Environment) : bool :=
  match e with
  | Direct s => Standard.IsRunning os s
  | PTY t => Tty.IsRunning os t
  end.

Definition GetRootDirectory (e : Environment) : string :=
  match e with
  | Direct s => Standard.GetRootDirectory s
  | PTY t => Tty.GetRootDirectory t
  end.

Definition ExecuteAsync (cmd : string) (args : list string)
  : M Environment (option error) :=
  dispatch (Standard.ExecuteAsync os cmd args) (Tty.ExecuteAsync os cmd args).

Definition ExecuteInMainProcess (cmd : string) : M Environment (option error) :=
  dispatch (Standard.ExecuteInMainProcess os cmd) (Tty.ExecuteInMainProcess os cmd).

Definition Kill : M Environment (option error) :=
  dispatch (Standard.Kill os) (Tty.Kill os).

Definition Create : M Environment (option error) :=
  dispatch Standard.Create Tty.Create.

Definition Delete : M Environment (option error) :=
  dispatch (Standard.Delete os) (Tty.Delete os).

Definition DisplayToConsole (msg : string) : M Environment unit :=
  dispatch (Standard.DisplayToConsole msg) (Tty.DisplayToConsole msg).

(** The fields both implementations have. *)
Definition mainProcess (e : Environment) : option Cmd :=
  match e with
  | Direct s => Standard.mainProcess s
  | PTY t => Tty.mainProcess t
  end.

Definition stdInWriter (e : Environment) : option Writer :=
  match e with
  | Direct s => Standard.stdInWriter s
  | PTY t => Tty.stdInWriter t
  end.

Definition set_mainProcess (c : option Cmd) (e : Environment) : Environment :=
  match e with
  | Direct s => Direct (Standard.set_mainProcess c s)
  | PTY t => PTY (Tty.set_mainProcess c t)
  end.

(** The counter of the wait group. *)
Definition wait (e : Environment) : Z :=
  match e with
  | Direct s => Standard.wait s
  | PTY t => Tty.wait t
  end.

Definition set_wait (n : Z) (e : Environment) : Environment :=
  match e with
  | Direct s => Direct (Standard.set_wait n s)
  | PTY t => PTY (Tty.set_wait n t)
  end.

(** The environment with one more chunk in its console buffer. *)
Definition console_written (msg : string) (e : Environment) : Environment :=
  match e with
  | Direct s =>
      Direct (Standard.set_ConsoleBuffer
                (Cache_Write (Standard.ConsoleBuffer s) msg) s)
  | PTY t =>
      PTY (Tty.set_ConsoleBuffer (Cache_Write (Tty.ConsoleBuffer t) msg) t)
  end.

Definition ConsoleBuffer (e : Environment) : Cache :=
  match e with
  | Direct s => Standard.ConsoleBuffer s
  | PTY t => Tty.ConsoleBuffer t
  end.

End WithOS.
End Environments.

(** ** The literal-file-write operation *)

Module Operations.

Record WriteFile : Type := {
  TargetFile : string;
  (** the environment the operation was built for *)
  Environment : Environments.Environment;
  Text : string
}.

Section WithOS.
Context (os : OS).

(** [WriteFile.Run]: the result of [ioutil.WriteFile] is dropped. *)
Definition Run {S} (c : WriteFile) : M S (option error) :=
  let target :=
    JoinPath os (Environments.GetRootDirectory (Environment c)) (TargetFile c) in
  emit (EvWriteFile target (Text c) perm_0644);;
  let _ := ioutilWriteFile os target (Text c) perm_0644 in
  mret None.

End WithOS.

(** The [Operation] interface of the install pipeline: the literal file
    write, or one of the operations kept outside this core (download,
    archive extraction, command), which run against the environment. *)
Inductive Operation : Type :=
| OpWriteFile (c : WriteFile)
| OpExternal (name : string)
             (run : M Environments.Environment (option error)).

Definition Operation_Run (os : OS) (op : Operation)
  : M Environments.Environment (option error) :=
  match op with
  | OpWriteFile c => Run os c
  | OpExternal _ run => run
  end.

End Operations.

(** ** programs/program.go: the workload lifecycle *)

Module Programs.

Record Runtime : Type := {
  Stop : string;
  Pre : list string;
  Post : list string;
  Program : string;
  Arguments : list string;
  Enabled : bool;
  AutoStart : bool
}.

(** Modelled from the spec: [install.InstallSection] is declared in package
    [install], outside the sources at hand; the install spec is the ordered
    list of operation descriptors of the persisted definition. *)
Definition InstallSection : Type := list (gmap string value).

Record programData : Type := {
  RunData : Runtime;
  InstallData : InstallSection;
  Environment : Environments.Environment;
  Identifier : string;
  Data : gomap
}.

Definition set_Environment (e : Environments.Environment) (p : programData)
  : programData :=
  {| RunData := RunData p; InstallData := InstallData p; Environment := e;
     Identifier := Identifier p; Data := Data p |}.

Definition set_Data (d : gomap) (p : programData) : programData :=
  {| RunData := RunData p; InstallData := InstallData p;
     Environment := Environment p; Identifier := Identifier p; Data := d |}.

Definition set_InstallData (i : InstallSection) (p : programData) : programData :=
  {| RunData := RunData p; InstallData := i; Environment := Environment p;
     Identifier := Identifier p; Data := Data p |}.

Definition set_RunData (r : Runtime) (p : programData) : programData :=
  {| RunData := r; InstallData := InstallData p; Environment := Environment p;
     Identifier := Identifier p; Data := Data p |}.

(** A call on [p.Environment]. *)
Definition env {A} (m : M Environments.Environment A) : M programData A :=
  zoom Environment (fun p e => set_Environment e p) m.

(** [v.(map[string]interface{})["value"]]: [None] when the assertion fails. *)
Definition descriptor_value (v : value) : option value :=
  match v with
  | VMap m => Some (default VNil (m !! "value"))
  | _ => None
  end.

(** The loop of [Start] that collects the current value of every parameter;
    [None] when a type assertion fails. *)
Definition current_values (d : gomap) : option (gmap string value) :=
  match d with
  | None => Some ∅
  | Some m =>
      map_fold (fun k v acc =>
                  data ← acc; x ← descriptor_value v; Some (<[k:=x]> data))
               (Some ∅) m
  end.

(** One round of the loop of [Edit]; [None] is the panic of an assignment to
    an entry of a nil map. *)
Definition Edit_step (k : string) (v : value) (d : gomap) : option gomap :=
  let d := if is_nil v || is_empty_string v then delete k <$> d else d in
  match d with
  | Some m => Some (Some (<[k:=v]> m))
  | None => None
  end.

Definition Edit_loop (data : gmap string value) (d : gomap) : option gomap :=
  map_fold (fun k v acc => d ← acc; Edit_step k v d) (Some d) data.

(** [v.(map[string]interface{})["value"].(string)]. *)
Definition descriptor_string (v : value) : outcome string :=
  match v with
  | VMap m =>
      match default VNil (m !! "value") with
      | VString s => Return s
      | _ => Panic "interface conversion: interface {} is not string"
      end
  | _ => Panic "interface conversion: interface {} is not map[string]interface {}"
  end.

Definition Id (p : programData) : string := Identifier p.

Definition GetEnvironment (p : programData) : Environments.Environment :=
  Environment p.

Definition GetData (p : programData) : gomap := Data p.

Definition IsEnabled (p : programData) : bool := Enabled (RunData p).

Definition IsAutoStart (p : programData) : bool := AutoStart (RunData p).

Definition GetNetwork (p : programData) : outcome string :=
  let data := GetData p in
  let ip := "0.0.0.0" in
  let port := "0" in
  let ipData := index data "ip" in
  match (if is_nil ipData then Return ip else descriptor_string ipData) with
  | Panic r => Panic r
  | Return ip =>
      let portData := index data "port" in
      match (if is_nil portData then Return port
             else descriptor_string portData) with
      | Panic r => Panic r
      | Return port => Return (ip +:+ ":" +:+ port)
      end
  end.

Definition Reload (replacement : programData) : M programData unit :=
  modify (set_Data (Data replacement));;
  modify (set_InstallData (InstallData replacement));;
  modify (set_RunData (RunData replacement)).

Definition SetEnabled (isEnabled : bool) : M programData (option error) :=
  modify (fun p =>
    set_RunData {| Stop := Stop (RunData p); Pre := Pre (RunData p);
                   Post := Post (RunData p); Program := Program (RunData p);
                   Arguments := Arguments (RunData p); Enabled := isEnabled;
                   AutoStart := AutoStart (RunData p) |} p);;
  mret None.

Definition SetAutoStart (isAutoStart : bool) : M programData (option error) :=
  modify (fun p =>
    set_RunData {| Stop := Stop (RunData p); Pre := Pre (RunData p);
                   Post := Post (RunData p); Program := Program (RunData p);
                   Arguments := Arguments (RunData p);
                   Enabled := Enabled (RunData p);
                   AutoStart := isAutoStart |} p);;
  mret None.

Definition SetEnvironment (environment : Environments.Environment)
  : M programData (option error) :=
  modify (set_Environment environment);;
  mret None.

Section WithOS.
Context (os : OS).

(** [install.GenerateInstallProcess], of package [install], outside the
    sources at hand: it builds the operations of the pipeline from the install
    spec, the environment and the data. *)
Context (GenerateInstallProcess :
  InstallSection -> Environments.Environment -> gomap ->
  list Operations.Operation).

Definition IsRunning (p : programData) : bool :=
  Environments.IsRunning os (Environment p).

Definition Start : M programData (option error) :=
  p ← get;
  emit (EvLogDebug ("Starting server " +:+ Id p));;
  env (Environments.DisplayToConsole "Starting server");;
  match current_values (Data p) with
  | None => panic "interface conversion: interface {} is not map[string]interface {}"
  | Some data =>
      err ← env (Environments.ExecuteAsync os (Program (RunData p))
                   (ReplaceTokensInArr os (Arguments (RunData p)) data));
      (if err is Some _
       then env (Environments.DisplayToConsole ("Failed to start server" +:+ LF))
       else mret tt);;
      mret err
  end.

Definition Stop_ : M programData (option error) :=
  p ← get;
  err ← env (Environments.ExecuteInMainProcess os (Stop (RunData p)));
  (if err is Some _
   then env (Environments.DisplayToConsole ("Failed to stop server" +:+ LF))
   else env (Environments.DisplayToConsole ("Server stopped" +:+ LF)));;
  mret err.

Definition Kill : M programData (option error) :=
  err ← env (Environments.Kill os);
  (if err is Some _
   then env (Environments.DisplayToConsole ("Failed to kill server" +:+ LF))
   else env (Environments.DisplayToConsole ("Server killed" +:+ LF)));;
  mret err.

Definition Create : M programData (option error) :=
  env (Environments.DisplayToConsole ("Allocating server" +:+ LF));;
  err ← env Environments.Create;
  env (Environments.DisplayToConsole ("Server allocated" +:+ LF));;
  mret err.

Definition Destroy : M programData (option error) :=
  env (Environments.Delete os).

Definition Execute (command : string) : M programData (option error) :=
  env (Environments.ExecuteInMainProcess os command).

(** Modelled from the spec: [install.InstallProcess] with its [HasNext] and
    [RunNext] is in package [install], outside the sources at hand. The
    pipeline holds the steps still to run, in order; "has more steps" is true
    while one is left, and "run next step" takes the first one off and runs
    it. *)
Definition HasNext (process : list Operations.Operation) : bool :=
  match process with [] => false | _ :: _ => true end.

Definition RunNext (process : list Operations.Operation)
  : M programData (option error * list Operations.Operation) :=
  match process with
  | [] => panic "index out of range"
  | op :: rest =>
      err ← env (Operations.Operation_Run os op);
      mret (err, rest)
  end.

(** The loop of [Install] over the pipeline: the empty case is [HasNext]
    being false, the other one a round of the loop. Next to the error it
    gives the steps that were run, each with what it returned, in the order
    they ran. *)
Fixpoint Install_loop (process : list Operations.Operation) (err : option error)
  : M programData (option error * list (Operations.Operation * option error)) :=
  match process with
  | [] => mret (err, [])
  | op :: rest =>
      r ← RunNext (op :: rest);
      let err := r.1 in
      match err with
      | Some _ =>
          emit (EvLogError "Error running installer: " err);;
          env (Environments.DisplayToConsole ("Error installing server" +:+ LF));;
          mret (err, [(op, err)])
      | None =>
          r' ← Install_loop rest err;
          mret (r'.1, (op, err) :: r'.2)
      end
  end.

Definition Install
  : M programData (option error * list (Operations.Operation * option error)) :=
  p ← get;
  err ← (if IsRunning p then Stop_ else mret None);
  match err with
  | Some _ =>
      emit (EvLogError "Error stopping server to install: " err);;
      env (Environments.DisplayToConsole ("Error stopping server" +:+ LF));;
      mret (err, [])
  | None =>
      env (Environments.DisplayToConsole ("Installing server" +:+ LF));;
      p ← get;
      emit (EvMkdirAll (Environments.GetRootDirectory (Environment p)) perm_0755);;
      let process :=
        GenerateInstallProcess (InstallData p) (Environment p) (Data p) in
      r ← Install_loop process err;
      env (Environments.DisplayToConsole ("Server installed" +:+ LF));;
      mret r
  end.

Definition Update
  : M programData (option error * list (Operations.Operation * option error)) :=
  Install.

Definition Edit (data : gmap string value) : M programData (option error) :=
  p ← get;
  match Edit_loop data (Data p) with
  | None => panic "assignment to entry in nil map"
  | Some d =>
      modify (set_Data d);;
      p ← get;
      emit (EvSave (Id p));;
      mret (programsSave os (Id p))
  end.

End WithOS.
End Programs.

(** ** Sample machines and programs *)

Module Samples.

(** A machine on which every tracked process is alive and every call
    succeeds. *)
Definition os_ok : OS :=
  {| findProcess := fun _ => true;
     signal0 := fun _ => None;
     processKill := fun _ => None;
     Environ := ["PATH=/usr/bin"];
     configGet := fun _ => "";
     stdinPipe := fun _ => inl 3%nat;
     cmdStart := fun _ => inl 4242%Z;
     ptyStart := fun _ => inl (5%nat, 4242%Z);
     writeString := fun _ _ => None;
     ioutilWriteFile := fun _ _ _ => None;
     removeAll := fun _ => None;
     JoinPath := fun a b => a +:+ "/" +:+ b;
     ReplaceTokensInArr := fun arr _ => arr;
     programsSave := fun _ => None |}.

(** A machine on which no process answers the probe, nothing can be spawned
    and no file can be written. *)
Definition os_down : OS :=
  {| findProcess := fun _ => true;
     signal0 := fun _ => Some (os_Error "os: process already finished");
     processKill := fun _ => Some (os_Error "os: process already finished");
     Environ := ["PATH=/usr/bin"];
     configGet := fun _ => "";
     stdinPipe := fun _ => inl 3%nat;
     cmdStart := fun _ => inr (os_Error "fork/exec: no such file or directory");
     ptyStart := fun _ => inr (os_Error "fork/exec: no such file or directory");
     writeString := fun _ _ => Some (os_Error "write: broken pipe");
     ioutilWriteFile := fun _ _ _ => Some (os_Error "open: permission denied");
     removeAll := fun _ => None;
     JoinPath := fun a b => a +:+ "/" +:+ b;
     ReplaceTokensInArr := fun arr _ => arr;
     programsSave := fun _ => None |}.

(** A command that was started as process 4242. *)
Definition cmd_started : Cmd :=
  set_Process (exec_Command "java" ["-jar"; "server.jar"]) (Some {| Pid := 4242 |}).

(** A Direct environment that has never started anything. *)
Definition std_fresh : Standard.standard :=
  {| Standard.RootDirectory := "/var/lib/pufferd/servers/s1";
     Standard.ConsoleBuffer := [];
     Standard.WSManager := [];
     Standard.mainProcess := None;
     Standard.stdInWriter := None;
     Standard.wait := 0 |}.

(** A Direct environment tracking process 4242, with its input pipe. *)
Definition std_started : Standard.standard :=
  {| Standard.RootDirectory := "/var/lib/pufferd/servers/s1";
     Standard.ConsoleBuffer := [];
     Standard.WSManager := [];
     Standard.mainProcess := Some cmd_started;
     Standard.stdInWriter := Some (Pipe 3);
     Standard.wait := 1 |}.

(** The same environment after [Kill]: the process handle is cleared, the
    input pipe of the killed process is still there. *)
Definition std_killed : Standard.standard :=
  Standard.set_mainProcess None std_started.

(** A PTY environment tracking process 4242. *)
Definition tty_started : Tty.tty :=
  {| Tty.RootDirectory := "/var/lib/pufferd/servers/s2";
     Tty.ConsoleBuffer := [];
     Tty.WSManager := [];
     Tty.mainProcess := Some cmd_started;
     Tty.stdInWriter := Some (File (Some 5%nat));
     Tty.wait := 1 |}.

Definition runtime : Programs.Runtime :=
  {| Programs.Stop := "stop";
     Programs.Pre := [];
     Programs.Post := [];
     Programs.Program := "java";
     Programs.Arguments := ["-jar"; "server.jar"];
     Programs.Enabled := true;
     Programs.AutoStart := false |}.

(** A parameter descriptor holding the current value [v]. *)
Definition descriptor (v : value) : value := VMap {[ "value" := v ]}.

Definition program (e : Environments.Environment) (d : gomap)
  : Programs.programData :=
  {| Programs.RunData := runtime;
     Programs.InstallData := [];
     Programs.Environment := e;
     Programs.Identifier := "s1";
     Programs.Data := d |}.

(** A literal file write into the root of the fresh environment. *)
Definition write_properties : Operations.WriteFile :=
  {| Operations.TargetFile := "server.properties";
     Operations.Environment := Environments.Direct std_fresh;
     Operations.Text := "motd=hello" |}.

(** Data with an address and a port. *)
Definition data_net : gmap string value :=
  {[ "ip" := descriptor (VString "10.0.0.7");
     "port" := descriptor (VString "25565") ]}.

(** Data whose port is a JSON number. *)
Definition data_numeric_port : gmap string value :=
  {[ "port" := descriptor (VNumber 25565) ]}.

End Samples.

(** Whether every step of a pipeline is a literal file write. *)
Definition only_WriteFile (ops : list Operations.Operation) : Prop :=
  Forall (fun op => match op with
                    | Operations.OpWriteFile _ => True
                    | Operations.OpExternal _ _ => False
                    end) ops.

(** ** WaitForMainProcessFor: the waiting thread, the timer and the reaper *)

(** [WaitForMainProcessFor] blocks on the wait group while the function given
    to [time.AfterFunc] runs in a goroutine of its own and the reaper started
    by [ExecuteAsync] waits for the process. The three threads and the tracked
    process are modelled as a transition system: a step is one statement of
    one thread (for [Kill], which the timer calls, one statement of its body),
    and a schedule is the order in which the steps are taken.

    The run-time library is taken as documented: [time.AfterFunc] calls the
    function in its own goroutine once the duration has elapsed, at any moment
    as far as the other threads can tell; [Timer.Stop] prevents a call that
    has not started and does not wait for one that has; [WaitGroup.Wait]
    returns once the counter is zero; [Cmd.Wait] returns once the process has
    terminated and marks it as done; a signal sent to a process marked as done
    is answered by an error, and the zero signal tells whether it is. *)

Module Concurrent.

(** The tracked process: running, terminated but not yet waited for, or
    waited for. *)
Inductive proc : Type := Alive | Terminated | Reaped.

Definition ErrProcessDone : error := os_Error "os: process already finished".

(** What the operating system answers about the tracked process in a given
    state of it; the calls that do not concern it are answered by [base]. *)
Definition os_of (base : OS) (pr : proc) : OS :=
  {| findProcess := fun _ => true;
     signal0 := fun _ =>
       match pr with Reaped => Some ErrProcessDone | _ => None end;
     processKill := fun _ =>
       match pr with Reaped => Some ErrProcessDone | _ => None end;
     Environ := Environ base;
     configGet := configGet base;
     stdinPipe := stdinPipe base;
     cmdStart := cmdStart base;
     ptyStart := ptyStart base;
     writeString := writeString base;
     ioutilWriteFile := ioutilWriteFile base;
     removeAll := removeAll base;
     JoinPath := JoinPath base;
     ReplaceTokensInArr := ReplaceTokensInArr base;
     programsSave := programsSave base |}.

(** The kill signal ends a process that is alive. *)
Definition killed (pr : proc) : proc :=
  match pr with Alive => Terminated | _ => pr end.

Inductive timer : Type := NotSet | Armed | Fired | Stopped.

(** Where the thread that called [WaitForMainProcessFor] stands. *)
Inductive waiter_pc : Type :=
| W_check                    (* if s.IsRunning() *)
| W_timeout                  (* if timeout > 0 *)
| W_arm                      (* timer = time.AfterFunc(..., func() { err = s.Kill() }) *)
| W_wait                     (* s.wait.Wait(), then timer.Stop() *)
| W_stop                     (* timer.Stop() *)
| W_wait_only                (* s.wait.Wait(), no timer *)
| W_return                   (* return: the result variable is read *)
| W_done (result : option error).

(** Where the goroutine of the timer stands in [err = s.Kill()]. *)
Inductive timer_pc : Type :=
| T_idle
| T_check                    (* if !s.IsRunning() { return } *)
| T_kill                     (* err = s.mainProcess.Process.Kill() *)
| T_release (r : option error)   (* s.mainProcess.Process.Release() *)
| T_clear (r : option error)     (* s.mainProcess = nil *)
| T_assign (r : option error)    (* the result of Kill is stored in err *)
| T_done
| T_panic.

(** Where the reaper stands. *)
Inductive reaper_pc : Type :=
| R_wait                     (* s.mainProcess.Wait() *)
| R_done                     (* s.wait.Done() *)
| R_finished.

Record state : Type := {
  env : Environments.Environment;
  process : proc;
  (** the result variable [err] of [WaitForMainProcessFor] *)
  err : option error;
  tmr : timer;
  wpc : waiter_pc;
  tpc : timer_pc;
  rpc : reaper_pc;
  (** the calls made so far *)
  calls : list Event
}.

Inductive label : Type :=
| Waiter        (* the next statement of the waiting thread *)
| Expire        (* the duration of the timer elapses *)
| Timer         (* the next statement of the timer goroutine *)
| Reap          (* the next statement of the reaper *)
| Exit.         (* the process terminates on its own *)

#[global] Instance label_eq_dec : EqDecision label.
Proof. solve_decision. Defined.

Section Steps.
Context (base : OS) (timeout : Z).

Definition IsRunning (st : state) : bool :=
  Environments.IsRunning (os_of base (process st)) (env st).

Definition waiter_step (st : state) : option state :=
  match wpc st with
  | W_check =>
      Some {| env := env st; process := process st; err := err st;
              tmr := tmr st;
              wpc := if IsRunning st then W_timeout else W_return;
              tpc := tpc st; rpc := rpc st; calls := calls st |}
  | W_timeout =>
      Some {| env := env st; process := process st; err := err st;
              tmr := tmr st;
              wpc := if (0 <? timeout)%Z then W_arm else W_wait_only;
              tpc := tpc st; rpc := rpc st; calls := calls st |}
  | W_arm =>
      Some {| env := env st; process := process st; err := err st;
              tmr := Armed; wpc := W_wait;
              tpc := tpc st; rpc := rpc st; calls := calls st |}
  | W_wait =>
      if bool_decide (Environments.wait (env st) = 0%Z)
      then Some {| env := env st; process := process st; err := err st;
                   tmr := tmr st; wpc := W_stop;
                   tpc := tpc st; rpc := rpc st; calls := calls st |}
      else None
  | W_stop =>
      Some {| env := env st; process := process st; err := err st;
              tmr := match tmr st with Armed => Stopped | t => t end;
              wpc := W_return;
              tpc := tpc st; rpc := rpc st; calls := calls st |}
  | W_wait_only =>
      if bool_decide (Environments.wait (env st) = 0%Z)
      then Some {| env := env st; process := process st; err := err st;
                   tmr := tmr st; wpc := W_return;
                   tpc := tpc st; rpc := rpc st; calls := calls st |}
      else None
  | W_return =>
      Some {| env := env st; process := process st; err := err st;
              tmr := tmr st; wpc := W_done (err st);
              tpc := tpc st; rpc := rpc st; calls := calls st |}
  | W_done _ => None
  end.

Definition expire_step (st : state) : option state :=
  match tmr st with
  | Armed =>
      Some {| env := env st; process := process st; err := err st;
              tmr := Fired; wpc := wpc st;
              tpc := T_check; rpc := rpc st; calls := calls st |}
  | _ => None
  end.

Definition timer_step (st : state) : option state :=
  match tpc st with
  | T_check =>
      Some {| env := env st; process := process st; err := err st;
              tmr := tmr st; wpc := wpc st;
              tpc := if negb (IsRunning st) then T_assign None else T_kill;
              rpc := rpc st; calls := calls st |}
  | T_kill =>
      match Environments.mainProcess (env st) ≫= Process with
      | Some p =>
          Some {| env := env st; process := killed (process st);
                  err := err st; tmr := tmr st; wpc := wpc st;
                  tpc := T_release
                           (processKill (os_of base (process st)) (Pid p));
                  rpc := rpc st; calls := calls st ++ [EvKill (Pid p)] |}
      | None =>
          Some {| env := env st; process := process st; err := err st;
                  tmr := tmr st; wpc := wpc st; tpc := T_panic;
                  rpc := rpc st; calls := calls st |}
      end
  | T_release r =>
      match Environments.mainProcess (env st) ≫= Process with
      | Some p =>
          Some {| env := env st; process := process st; err := err st;
                  tmr := tmr st; wpc := wpc st; tpc := T_clear r;
                  rpc := rpc st; calls := calls st ++ [EvRelease (Pid p)] |}
      | None =>
          Some {| env := env st; process := process st; err := err st;
                  tmr := tmr st; wpc := wpc st; tpc := T_panic;
                  rpc := rpc st; calls := calls st |}
      end
  | T_clear r =>
      Some {| env := Environments.set_mainProcess None (env st);
              process := process st; err := err st;
              tmr := tmr st; wpc := wpc st; tpc := T_assign r;
              rpc := rpc st; calls := calls st |}
  | T_assign r =>
      Some {| env := env st; process := process st; err := r;
              tmr := tmr st; wpc := wpc st; tpc := T_done;
              rpc := rpc st; calls := calls st |}
  | T_idle | T_done | T_panic => None
  end.

Definition reaper_step (st : state) : option state :=
  match rpc st with
  | R_wait =>
      match process st with
      | Terminated =>
          Some {| env := env st; process := Reaped; err := err st;
                  tmr := tmr st; wpc := wpc st; tpc := tpc st;
                  rpc := R_done; calls := calls st |}
      | _ => None
      end
  | R_done =>
      Some {| env := Environments.set_wait
                       (Environments.wait (env st) - 1) (env st);
              process := process st; err := err st;
              tmr := tmr st; wpc := wpc st; tpc := tpc st;
              rpc := R_finished; calls := calls st |}
  | R_finished => None
  end.

Definition exit_step (st : state) : option state :=
  match process st with
  | Alive =>
      Some {| env := env st; process := Terminated; err := err st;
              tmr := tmr st; wpc := wpc st; tpc := tpc st;
              rpc := rpc st; calls := calls st |}
  | _ => None
  end.

(** One step; [None] when the thread is blocked or has finished. *)
Definition step (l : label) (st : state) : option state :=
  match l with
  | Waiter => waiter_step st
  | Expire => expire_step st
  | Timer => timer_step st
  | Reap => reaper_step st
  | Exit => exit_step st
  end.

(** A schedule, from the first step to the last. *)
Fixpoint run (schedule : list label) (st : state) : option state :=
  match schedule with
  | [] => Some st
  | l :: rest =>
      match step l st with
      | Some st' => run rest st'
      | None => None
      end
  end.

End Steps.

(** The state in which [WaitForMainProcessFor] is called on an environment
    whose process is alive and whose reaper is waiting. *)
Definition called_on (e : Environments.Environment) : state :=
  {| env := e; process := Alive; err := None; tmr := NotSet;
     wpc := W_check; tpc := T_idle; rpc := R_wait; calls := [] |}.

(** The steps of a thread in a schedule. *)
Definition of_thread (l : label) (schedule : list label) : list label :=
  filter (fun l' => l' = l) schedule.

(** The timer expires and finds the process running; the process then
    terminates on its own and is reaped, which wakes the waiting thread. In
    the first schedule the waiting thread reads its result before the timer
    goroutine has stored the result of [Kill]; in the second, after. *)
Definition schedule_return_first : list label :=
  [Waiter; Waiter; Waiter; Expire; Timer; Exit; Reap; Reap;
   Waiter; Waiter; Waiter; Timer; Timer; Timer; Timer].

Definition schedule_assign_first : list label :=
  [Waiter; Waiter; Waiter; Expire; Timer; Exit; Reap; Reap;
   Timer; Timer; Timer; Timer; Waiter; Waiter; Waiter].

(** The timer expires first, the kill ends the process. *)
Definition schedule_timeout : list label :=
  [Waiter; Waiter; Waiter; Expire; Timer; Timer; Reap; Reap;
   Timer; Timer; Timer; Waiter; Waiter; Waiter].

(** The process terminates first, the timer is stopped before it expires. *)
Definition schedule_completion : list label :=
  [Waiter; Waiter; Waiter; Exit; Reap; Reap; Waiter; Waiter; Waiter].

End Concurrent.


(** Three steps for a pipeline: the first succeeds, the second fails, the
    third would succeed and would leave a file behind. *)
Definition step_A : Operations.Operation :=
  Operations.OpExternal "A" (emit (EvMkdirAll "A" perm_0755);; mret None).

Definition step_B : Operations.Operation :=
  Operations.OpExternal "B" (mret (Some (errors_New "B failed"))).

Definition step_C : Operations.Operation :=
  Operations.OpExternal "C" (emit (EvMkdirAll "C" perm_0755);; mret None).

(** A pipeline generator that gives these three steps whatever the install
    spec, and a stopped program to install. *)
Definition generate_ABC
  : Programs.InstallSection -> Environments.Environment -> gomap ->
    list Operations.Operation :=
  fun _ _ _ => [step_A; step_B; step_C].

Definition program_stopped : Programs.programData :=
  Samples.program (Environments.Direct Samples.std_fresh) (Some Samples.data_net).

(** A key with no entry in a map variable. *)
Definition absent (d : gomap) (k : string) : Prop :=
  match d with
  | None => True
  | Some m => m !! k = None
  end.

(** What [GetNetwork] reads for one parameter: the default when the entry is
    absent or holds nil, the string held by a well-formed descriptor
    otherwise. *)
Inductive parameter_reads (d : gomap) (k dflt : string) : string -> Prop :=
| reads_absent :
    absent d k -> parameter_reads d k dflt dflt
| reads_nil (m : gmap string value) :
    d = Some m -> m !! k = Some VNil -> parameter_reads d k dflt dflt
| reads_current (m desc : gmap string value) (s : string) :
    d = Some m -> m !! k = Some (VMap desc) ->
    desc !! "value" = Some (VString s) ->
    parameter_reads d k dflt s.

(** ** The command built by ExecuteAsync *)

(** The command the Direct environment has configured when it calls
    [Cmd.Start]: working directory and HOME set to the root directory, both
    output streams wired to the one multiplexed writer. *)
Definition standard_command (os : OS) (s : Standard.standard)
           (cmd : string) (args : list string) : Cmd :=
  {| Path := cmd; Args := cmd :: args;
     Dir := Standard.RootDirectory s;
     Env := Environ os ++ ["HOME=" +:+ Standard.RootDirectory s];
     Stdout := Some (Standard.createWrapper os s);
     Stderr := Some (Standard.createWrapper os s);
     Setctty := false; Setsid := false; Process := None |}.

(** The command the PTY environment hands to [pty.Start]: a session leader
    with a controlling terminal, its output not yet wired. *)
Definition tty_command (os : OS) (s : Tty.tty)
           (cmd : string) (args : list string) : Cmd :=
  {| Path := cmd; Args := cmd :: args;
     Dir := Tty.RootDirectory s;
     Env := Environ os ++ ["HOME=" +:+ Tty.RootDirectory s];
     Stdout := None; Stderr := None;
     Setctty := true; Setsid := true; Process := None |}.

(** Whether a pid answers the liveness probe of [IsRunning]. *)
Definition probe (os : OS) (pid : Z) : bool :=
  if negb (findProcess os pid) then false
  else if signal0 os pid is Some _ then false else true.

(** A machine like [Samples.os_ok] on which no input pipe can be made. *)
Definition os_no_pipe : OS :=
  {| findProcess := findProcess Samples.os_ok;
     signal0 := signal0 Samples.os_ok;
     processKill := processKill Samples.os_ok;
     Environ := Environ Samples.os_ok;
     configGet := configGet Samples.os_ok;
     stdinPipe := fun _ => inr (os_Error "pipe: too many open files");
     cmdStart := cmdStart Samples.os_ok;
     ptyStart := ptyStart Samples.os_ok;
     writeString := writeString Samples.os_ok;
     ioutilWriteFile := ioutilWriteFile Samples.os_ok;
     removeAll := removeAll Samples.os_ok;
     JoinPath := JoinPath Samples.os_ok;
     ReplaceTokensInArr := ReplaceTokensInArr Samples.os_ok;
     programsSave := programsSave Samples.os_ok |}.


(** Two programs that differ at most in their environment. *)
Definition same_definition (p p' : Programs.programData) : Prop :=
  p' = Programs.set_Environment (Programs.Environment p') p.

(** A program bound to the PTY environment that tracks process 4242. *)
Definition program_running : Programs.programData :=
  Samples.program (Environments.PTY Samples.tty_started) (Some Samples.data_net).

(** Whether a value is a parameter descriptor, that is, a map. *)
Definition is_descriptor (v : value) : Prop := exists d, v = VMap d.

(** Whether every entry of a map variable is a descriptor. *)
Definition all_descriptors (d : gomap) : Prop :=
  forall m, d = Some m -> forall k v, m !! k = Some v -> is_descriptor v.

(** A program whose "port" is the bare string an [Edit] stores. *)
Definition program_edited : Programs.programData :=
  Samples.program (Environments.Direct Samples.std_fresh)
    (Some (<["port" := VString "25566"]> Samples.data_net)).

(** ** What holds in every state of a WaitForMainProcessFor call *)

(** The facts that every step of every thread keeps, for a call on the
    environment [e0] tracking the process [pid]: the wait group counts one
    until the reaper is through; the process is reaped exactly when the
    reaper has got past its wait; no timer exists before the waiting thread
    has set one, and none at all without a positive timeout; the waiting
    thread gets past its wait only once the process is reaped; the timer
    goroutine runs only after the timer has expired, keeps the process handle
    until it clears it, signals and releases the tracked pid at most once,
    and stores its result last. *)
Record wait_invariant (timeout : Z) (e0 : Environments.Environment)
       (pid : Z) (st : Concurrent.state) : Prop := {
  inv_counter :
    Environments.wait (Concurrent.env st)
    = if Concurrent.rpc st is Concurrent.R_finished then 0%Z else 1%Z;
  inv_reaped :
    Concurrent.process st = Concurrent.Reaped
    <-> Concurrent.rpc st <> Concurrent.R_wait;
  inv_early :
    Concurrent.wpc st = Concurrent.W_check \/
    Concurrent.wpc st = Concurrent.W_timeout \/
    Concurrent.wpc st = Concurrent.W_arm ->
    Concurrent.tmr st = Concurrent.NotSet;
  inv_no_timer :
    (0 <? timeout)%Z = false ->
    Concurrent.tmr st = Concurrent.NotSet /\
    Concurrent.wpc st <> Concurrent.W_arm /\
    Concurrent.wpc st <> Concurrent.W_wait /\
    Concurrent.wpc st <> Concurrent.W_stop;
  inv_late :
    Concurrent.wpc st = Concurrent.W_stop \/
    Concurrent.wpc st = Concurrent.W_return \/
    (exists r, Concurrent.wpc st = Concurrent.W_done r) ->
    Concurrent.process st = Concurrent.Reaped;
  inv_idle :
    Concurrent.tpc st = Concurrent.T_idle
    <-> Concurrent.tmr st <> Concurrent.Fired;
  inv_handle :
    match Concurrent.tpc st with
    | Concurrent.T_idle | Concurrent.T_check | Concurrent.T_kill
    | Concurrent.T_release _ =>
        Environments.mainProcess (Concurrent.env st)
        = Environments.mainProcess e0
    | _ => True
    end;
  inv_calls :
    match Concurrent.tpc st with
    | Concurrent.T_idle | Concurrent.T_check | Concurrent.T_kill =>
        Concurrent.calls st = []
    | Concurrent.T_release _ => Concurrent.calls st = [EvKill pid]
    | Concurrent.T_clear _ =>
        Concurrent.calls st = [EvKill pid; EvRelease pid]
    | Concurrent.T_assign _ | Concurrent.T_done =>
        Concurrent.calls st = [] \/
        Concurrent.calls st = [EvKill pid; EvRelease pid]
    | Concurrent.T_panic => False
    end;
  inv_err :
    Concurrent.tpc st <> Concurrent.T_done -> Concurrent.err st = None;
  inv_result :
    forall r, Concurrent.wpc st = Concurrent.W_done r ->
              r = None \/ Concurrent.tmr st = Concurrent.Fired
}.

(** A wait without a timer: the process terminates on its own. *)
Definition schedule_no_timeout : list Concurrent.label :=
  [Concurrent.Waiter; Concurrent.Waiter; Concurrent.Exit;
   Concurrent.Reap; Concurrent.Reap; Concurrent.Waiter; Concurrent.Waiter].

(** ** The two implementations side by side *)

(** The PTY environment with the fields of a Direct one. *)
Definition tty_of (s : Standard.standard) : Tty.tty :=
  {| Tty.RootDirectory := Standard.RootDirectory s;
     Tty.ConsoleBuffer := Standard.ConsoleBuffer s;
     Tty.WSManager := Standard.WSManager s;
     Tty.mainProcess := Standard.mainProcess s;
     Tty.stdInWriter := Standard.stdInWriter s;
     Tty.wait := Standard.wait s |}.

(** The outcome of a call on a Direct environment, read as one on the PTY
    environment with the same fields. *)
Definition as_tty {A} (o : outcome (A * Standard.standard * list Event))
  : outcome (A * Tty.tty * list Event) :=
  match o with
  | Return (a, s, tr) => Return (a, tty_of s, tr)
  | Panic r => Panic r
  end.

(** ** httphandlers/oauth2.go: the bearer-token handler *)

Module HttpHandlers.

(** [strings.SplitN(s, " ", 2)]: the string cut at its first space, or the
    string alone when it has none. *)
Fixpoint cut_space (s : string) : option (string * string) :=
  match s with
  | EmptyString => None
  | String c rest =>
      if Ascii.eqb c " "%char then Some (EmptyString, rest)
      else match cut_space rest with
           | Some (a, b) => Some (String c a, b)
           | None => None
           end
  end.

Definition SplitN2 (s : string) : list string :=
  match cut_space s with
  | Some (a, b) => [a; b]
  | None => [s]
  end.

(** [strings.Split(s, " ")]: the pieces between the spaces, one more than
    there are spaces. *)
Fixpoint Split (s : string) : list string :=
  match s with
  | EmptyString => [EmptyString]
  | String c rest =>
      if Ascii.eqb c " "%char then EmptyString :: Split rest
      else match Split rest with
           | piece :: pieces => String c piece :: pieces
           | [] => [String c EmptyString]
           end
  end.

(** [strings.Join(pieces, " ")]. *)
Fixpoint Join (pieces : list string) : string :=
  match pieces with
  | [] => EmptyString
  | [piece] => piece
  | piece :: rest => piece +:+ " " +:+ Join rest
  end.

(** An [http.Request] as the handler builds it, and what comes back: the
    status code and what [json.Decoder.Decode] leaves in the map variable
    (the nil map when the body is not a JSON object). *)
Record Request : Type := {
  Method : string;
  URL : string;
  Body : string;
  Header : list (string * string)
}.

Record Response : Type := {
  StatusCode : Z;
  Decoded : gomap
}.

(** The services the handler calls. *)
Record Net : Type := {
  (** [config.Get(key)] *)
  configGet : string -> string;
  (** [url.QueryEscape], which [url.Values.Encode] applies to the value *)
  QueryEscape : string -> string;
  (** whether [http.NewRequest] accepts the URL; it returns a nil request
      otherwise *)
  NewRequestOk : string -> bool;
  (** [http.Client.Do] *)
  Do : Request -> Response + error
}.

(** What [gin.Set] stores. *)
Inductive key : Type :=
| KString (s : string)
| KStrings (l : list string).

(** The [gin.Context]: the two places a token is read from, and what the
    handler leaves in it. *)
Record Context : Type := {
  (** [Request.Header.Get("Authorization")] *)
  Authorization : string;
  (** [Query("accessToken")] *)
  accessToken : string;
  (** the status of [AbortWithStatus], if it was called *)
  Aborted : option Z;
  (** the status and the object of [JSON], if it was called *)
  JSON : option (Z * gmap string string);
  (** the keys set by [Set] *)
  Keys : gmap string key
}.

Definition AbortWithStatus (code : Z) (c : Context) : Context :=
  {| Authorization := Authorization c; accessToken := accessToken c;
     Aborted := Some code; JSON := JSON c; Keys := Keys c |}.

Definition reply_JSON (code : Z) (obj : gmap string string) (c : Context)
  : Context :=
  {| Authorization := Authorization c; accessToken := accessToken c;
     Aborted := Aborted c; JSON := Some (code, obj); Keys := Keys c |}.

Definition Set_ (k : string) (v : key) (c : Context) : Context :=
  {| Authorization := Authorization c; accessToken := accessToken c;
     Aborted := Aborted c; JSON := JSON c; Keys := <[k:=v]> (Keys c) |}.

(** What leaves the handler: requests and log lines. *)
Inductive HEvent : Type :=
| HDo (r : Request)
| HLogError (msg : string) (err : option error)
| HLogErrorInt (msg : string) (n : Z).

(** The request [validateToken] sends for an access token. *)
Definition introspection (net : Net) (accessToken : string) : Request :=
  let data := "token=" +:+ QueryEscape net accessToken in
  {| Method := "POST";
     URL := configGet net "infoserver";
     Body := data;
     Header :=
       [("Authorization", "Bearer " +:+ configGet net "authtoken");
        ("Content-Type", "application/x-www-form-urlencoded");
        ("Content-Length", Itoa (Z.of_nat (String.length data)))] |}.

(** The verb [%i] is none of [fmt]'s verbs for an int: [Sprintf] prints the
    operand as a bad verb. *)
Definition Sprintf_response (code : Z) : string :=
  "Receieved response %!i(int=" +:+ Itoa code +:+ ")".

Definition validateToken (net : Net) (accessToken : string) (c : Context)
           (tr : list HEvent) : outcome (Context * list HEvent) :=
  if negb (NewRequestOk net (configGet net "infoserver"))
  then Panic "nil pointer dereference"
  else
    let request := introspection net accessToken in
    let tr := tr ++ [HDo request] in
    match Do net request with
    | inr err =>
        Return (reply_JSON 500 {[ "error" := Error err ]} c,
                tr ++ [HLogError "Error talking to auth server" (Some err)])
    | inl response =>
        if negb (StatusCode response =? 200)%Z then
          Return (reply_JSON 500
                    {[ "error" := Sprintf_response (StatusCode response) ]} c,
                  tr ++ [HLogErrorInt
                           "Unexpected response code from auth server"
                           (StatusCode response)])
        else
          let respArr := Decoded response in
          if negb (is_nil (index respArr "error")) then
            Return (reply_JSON 500
                      {[ "error" := "Failed to parse auth server response" ]} c,
                    tr ++ [HLogError
                             "Error parsing response from auth server" None])
          else
            match index respArr "active" with
            | VBool false => Return (AbortWithStatus 401 c, tr)
            | VBool true =>
                match index respArr "server_id" with
                | VString server_id =>
                    match index respArr "scope" with
                    | VString scope =>
                        Return (Set_ "scopes" (KStrings (Split scope))
                                  (Set_ "server_id" (KString server_id) c),
                                tr)
                    | _ => Panic "interface conversion: interface {} is not string"
                    end
                | _ => Panic "interface conversion: interface {} is not string"
                end
            | _ => Panic "interface conversion: interface {} is not bool"
            end
    end.

Definition OAuth2Handler (net : Net) (c : Context) (tr : list HEvent)
  : outcome (Context * list HEvent) :=
  let authHeader := Authorization c in
  if String.eqb authHeader "" then
    let authToken := accessToken c in
    if String.eqb authToken "" then Return (AbortWithStatus 401 c, tr)
    else validateToken net authToken c tr
  else
    match SplitN2 authHeader with
    | [a0; a1] =>
        if negb (String.eqb a0 "Bearer") then Return (AbortWithStatus 400 c, tr)
        else validateToken net a1 c tr
    | _ => Return (AbortWithStatus 400 c, tr)
    end.

(** An authorization service that answers every token as active for server
    "s1" with two scopes, and a request carrying a bearer token. *)
Definition net_granting : Net :=
  {| configGet := fun k => if String.eqb k "infoserver"
                           then "https://panel.example/oauth2/token/info"
                           else "daemon-secret";
     QueryEscape := fun s => s;
     NewRequestOk := fun _ => true;
     Do := fun _ =>
       inl {| StatusCode := 200;
              Decoded := Some {[ "active" := VBool true;
                                 "server_id" := VString "s1";
                                 "scope" := VString "server.start server.stop" ]} |} |}.

Definition bearer_request : Context :=
  {| Authorization := "Bearer abc def"; accessToken := "ignored";
     Aborted := None; JSON := None; Keys := ∅ |}.

End HttpHandlers.

(** An authorization service whose answer cannot be decoded. *)
Definition net_garbled : HttpHandlers.Net :=
  {| HttpHandlers.configGet := HttpHandlers.configGet HttpHandlers.net_granting;
     HttpHandlers.QueryEscape := fun s => s;
     HttpHandlers.NewRequestOk := fun _ => true;
     HttpHandlers.Do := fun _ =>
       inl {| HttpHandlers.StatusCode := 200;
              HttpHandlers.Decoded := None |} |}.

(** A string without a space. *)
Definition spaceless (s : string) : Prop := HttpHandlers.cut_space s = None.

(** ** migration/migration.go: taking over the servers of the old daemon *)

Module Migration.

Definition Scales : string := "/srv/scales/data".

(** [os.FileInfo], as far as the migration looks at it. *)
Record FileInfo : Type := { Name : string; IsDir : bool }.

Record scalesServerBuild : Type := { Memory : Z }.

Record scalesServerStartupVariables : Type := {
  Build_Params : string;
  Game : string;
  Map : string;
  Players : string
}.

Record scalesServerStartup : Type := {
  Variables : scalesServerStartupVariables
}.

Record scalesServer : Type := {
  server_Name : string;
  User : string;
  Build : scalesServerBuild;
  Gameport : Z;
  Gamehost : string;
  Plugin : string;
  Startup : scalesServerStartup
}.

(** The file system and the packages the migration calls. *)
Record FS : Type := {
  (** [programs.ServerFolder] *)
  ServerFolder : string;
  (** [ioutil.ReadDir] *)
  ReadDir : string -> list FileInfo + error;
  (** [ioutil.ReadFile] *)
  ReadFile : string -> string + error;
  (** [json.Unmarshal] into a [scalesServer] *)
  Unmarshal : string -> scalesServer + error;
  (** [os.Rename] *)
  Rename : string -> string -> option error;
  (** [filepath.Walk] with the function that changes the owner of every
      file to the daemon's user and group: the first error, if any *)
  WalkChown : string -> option error;
  (** [utils.JoinPath] *)
  JoinPath : list string -> string;
  (** [filepath.Ext] *)
  Ext : string -> string;
  (** [strings.TrimSuffix] *)
  TrimSuffix : string -> string -> string
}.

(** The calls that leave the migration, in the order they are made. *)
Inductive MEvent : Type :=
| MCopyTemplates
| MMkdirAll (path : string) (perm : Z)
| MLogCritical (msg : string) (err : error)
| MLogInfo (msg : string)
| MLogError (msg : string) (err : error)
| MRename (oldpath newpath : string)
| MWalkChown (path : string)
| MCreate (name plugin : string) (serverData : gmap string value).

(** The data handed to [programs.Create] for a server. *)
Definition serverData (scales : scalesServer) : gmap string value :=
  let d := <["ip" := VString (Gamehost scales)]> ∅ in
  let d := <["port" := VNumber (Gameport scales)]> d in
  if String.eqb (Plugin scales) "minecraft" then
    <["memory" := VNumber (Memory (Build scales))]> d
  else if String.eqb (Plugin scales) "srcds" then
    let d := <["appid" :=
                 VString (Build_Params (Variables (Startup scales)))]> d in
    let d := <["gametype" := VString (Game (Variables (Startup scales)))]> d in
    <["map" := VString (Map (Variables (Startup scales)))]> d
  else d.

Section WithFS.
Context (fs : FS).

(** One round of the loop over the files of the old data folder. *)
Definition migrate_one (element : FileInfo) : list MEvent :=
  if IsDir element then []
  else
    let id := TrimSuffix fs (Name element) (Ext fs (Name element)) in
    let info := MLogInfo ("Attempting to migrate " +:+ id) in
    match ReadFile fs (JoinPath fs [Scales; Name element]) with
    | inr err => [info; MLogError "Error read server config" err]
    | inl data =>
        match Unmarshal fs data with
        | inr err => [info; MLogError "Error read server config" err]
        | inl scales =>
            let newPath :=
              JoinPath fs ["data"; "servers"; server_Name scales] in
            let oldPath := JoinPath fs ["/home"; User scales] in
            match Rename fs oldPath newPath with
            | Some err =>
                [info; MRename oldPath newPath;
                 MLogError "Error moving folder" err]
            | None =>
                match WalkChown fs newPath with
                | Some err =>
                    [info; MRename oldPath newPath; MWalkChown newPath;
                     MLogError "Error changing owner of folder" err]
                | None =>
                    [info; MRename oldPath newPath; MWalkChown newPath;
                     MCreate (server_Name scales) (Plugin scales)
                             (serverData scales)]
                end
            end
        end
    end.

Fixpoint migrate_all (programFiles : list FileInfo) : list MEvent :=
  match programFiles with
  | [] => []
  | element :: rest => migrate_one element ++ migrate_all rest
  end.

Definition MigrateFromScales : list MEvent :=
  [MCopyTemplates; MMkdirAll (ServerFolder fs) perm_0755]
  ++ match ReadDir fs Scales with
     | inr err => [MLogCritical "Error reading from old Scales folder" err]
     | inl programFiles =>
         migrate_all programFiles
         ++ [MLogInfo
               "Migration complete, please restart pufferd to have it recognize the changes"]
     end.

(** The server a file of the old data folder is migrated as: none for a
    directory and for a file that cannot be read, parsed, moved or given to
    the daemon's user. *)
Definition migrated (element : FileInfo) : option scalesServer :=
  if IsDir element then None
  else
    match ReadFile fs (JoinPath fs [Scales; Name element]) with
    | inr _ => None
    | inl data =>
        match Unmarshal fs data with
        | inr _ => None
        | inl scales =>
            match Rename fs (JoinPath fs ["/home"; User scales])
                    (JoinPath fs ["data"; "servers"; server_Name scales]) with
            | Some _ => None
            | None =>
                match WalkChown fs
                        (JoinPath fs ["data"; "servers"; server_Name scales])
                with
                | Some _ => None
                | None => Some scales
                end
            end
        end
    end.

End WithFS.

(** The servers created in a trace, in order. *)
Definition created (tr : list MEvent) : list (string * string * gmap string value) :=
  omap (fun ev => match ev with
                  | MCreate name plugin data => Some (name, plugin, data)
                  | _ => None
                  end) tr.

(** A file system with three entries in the old folder: a directory, a server
    whose config cannot be parsed, and a minecraft server that migrates. *)
Definition minecraft_server : scalesServer :=
  {| server_Name := "mc1"; User := "mc1user";
     Build := {| Memory := 1024 |};
     Gameport := 25565; Gamehost := "10.0.0.7"; Plugin := "minecraft";
     Startup := {| Variables := {| Build_Params := ""; Game := ""; Map := "";
                                   Players := "" |} |} |}.

Definition fs_sample : FS :=
  {| ServerFolder := "data/servers";
     ReadDir := fun _ =>
       inl [ {| Name := "backups"; IsDir := true |};
             {| Name := "broken.json"; IsDir := false |};
             {| Name := "mc1.json"; IsDir := false |} ];
     ReadFile := fun path => inl path;
     Unmarshal := fun data =>
       if String.eqb data "/srv/scales/data/mc1.json"
       then inl minecraft_server
       else inr (os_Error "unexpected end of JSON input");
     Rename := fun _ _ => None;
     WalkChown := fun _ => None;
     JoinPath := fun parts =>
       foldr (fun a b => if String.eqb b "" then a else a +:+ "/" +:+ b)
             "" parts;
     Ext := fun _ => ".json";
     TrimSuffix := fun s _ => s |}.

End Migration.

(** * Properties *)

(** Unfolding of the monad of the embedding. *)
Ltac monad_run :=
  cbv beta iota zeta delta
    [mbind M_bind mret M_ret bind ret get modify emit panic zoom fst snd].


(** Symbolic execution of [ExecuteAsync]. *)
Ltac exec_run :=
  repeat (monad_run;
          cbv beta iota delta [Standard.with_cmd Standard.the_cmd Tty.with_cmd];
          cbn [Standard.mainProcess Standard.set_mainProcess
               Standard.set_stdInWriter Standard.set_wait
               Tty.mainProcess Tty.set_mainProcess Tty.set_stdInWriter
               Tty.set_wait]).

(** ** Reload *)

(** C10: [Reload] takes the data, the install spec and the runtime spec from
    the replacement and leaves the identifier and the bound environment of the
    program as they were; it reaches nothing outside the program. *)
Theorem Reload_frame (p d : Programs.programData) (tr : list Event) :
  exists p',
    Programs.Reload d p tr = Return (tt, p', tr) /\
    Programs.Identifier p' = Programs.Identifier p /\
    Programs.Environment p' = Programs.Environment p /\
    Programs.Data p' = Programs.Data d /\
    Programs.InstallData p' = Programs.InstallData d /\
    Programs.RunData p' = Programs.RunData d.
Proof.
  eexists. split; [reflexivity|]. cbn. repeat split.
Qed.

(** ** The literal file write *)

Lemma WriteFile_Run_eq {S} (os : OS) (c : Operations.WriteFile) (s : S)
      (tr : list Event) :
  Operations.Run os c s tr =
  Return (None, s,
          tr ++ [EvWriteFile
                   (JoinPath os
                      (Environments.GetRootDirectory (Operations.Environment c))
                      (Operations.TargetFile c))
                   (Operations.Text c) perm_0644]).
Proof. reflexivity. Qed.


(** C9: the literal file write returns nil whatever the file system answers,
    a failed write included; a pipeline made of such writes runs every step
    and hands no error to [Install]. *)
Theorem WriteFile_Run_always_nil (os : OS) :
  (forall (c : Operations.WriteFile) (e : Environments.Environment)
          (tr : list Event),
      exists tr',
        Operations.Operation_Run os (Operations.OpWriteFile c) e tr
        = Return (None, e, tr')) /\
  (forall (ops : list Operations.Operation) (p : Programs.programData)
          (tr : list Event),
      only_WriteFile ops ->
      exists tr',
        Programs.Install_loop os ops None p tr
        = Return ((None, map (fun op => (op, None)) ops), p, tr')).
Proof.
  split.
  - intros c e tr. cbn [Operations.Operation_Run].
    rewrite WriteFile_Run_eq. eexists. reflexivity.
  - intros ops. induction ops as [|op ops IH]; intros p tr Hall.
    + eexists. reflexivity.
    + inversion Hall as [|? ? Hop Hops]; subst.
      destruct op as [c|]; [|contradiction].
      destruct (IH p (tr ++ [EvWriteFile
                   (JoinPath os
                      (Environments.GetRootDirectory (Operations.Environment c))
                      (Operations.TargetFile c))
                   (Operations.Text c) perm_0644]) Hops) as [tr' Htr'].
      exists tr'. destruct p as [r i e id d].
      cbn [Programs.Install_loop]. monad_run.
      cbv beta iota delta [Programs.RunNext Programs.env]. monad_run.
      cbn [Operations.Operation_Run Programs.Environment].
      rewrite WriteFile_Run_eq.
      change (Programs.set_Environment e _)
        with {| Programs.RunData := r; Programs.InstallData := i;
                Programs.Environment := e; Programs.Identifier := id;
                Programs.Data := d |}.
      rewrite Htr'. reflexivity.
Qed.

(** On a machine that refuses every file write, the write and a pipeline of
    two writes still report nil. *)
Lemma WriteFile_Run_always_nil_witness :
  ioutilWriteFile Samples.os_down
    "/var/lib/pufferd/servers/s1/server.properties" "motd=hello" perm_0644
  = Some (os_Error "open: permission denied") /\
  (exists tr',
     Operations.Operation_Run Samples.os_down
       (Operations.OpWriteFile Samples.write_properties)
       (Environments.Direct Samples.std_fresh) []
     = Return (None, Environments.Direct Samples.std_fresh, tr')) /\
  (exists tr',
     Programs.Install_loop Samples.os_down
       [Operations.OpWriteFile Samples.write_properties;
        Operations.OpWriteFile Samples.write_properties]
       None program_stopped []
     = Return ((None,
                map (fun op => (op, None))
                  [Operations.OpWriteFile Samples.write_properties;
                   Operations.OpWriteFile Samples.write_properties]),
               program_stopped, tr')).
Proof.
  split; [reflexivity|]. split.
  - apply (proj1 (WriteFile_Run_always_nil Samples.os_down)).
  - apply (proj2 (WriteFile_Run_always_nil Samples.os_down)).
    repeat constructor.
Defined.

(** ** GetNetwork *)

Lemma read_parameter (d : gomap) (k dflt s : string) :
  parameter_reads d k dflt s ->
  (if is_nil (index d k) then Return dflt
   else Programs.descriptor_string (index d k)) = Return s.
Proof.
  intros [Habs | m Hd Hk | m desc s' Hd Hk Hv].
  - destruct d as [m|]; cbn in *; [rewrite Habs|]; reflexivity.
  - subst d. cbn. rewrite Hk. reflexivity.
  - subst d. cbn. rewrite Hk. cbn. rewrite Hv. reflexivity.
Qed.

Lemma read_parameter_inv (d : gomap) (k dflt s : string) :
  (if is_nil (index d k) then Return dflt
   else Programs.descriptor_string (index d k)) = Return s ->
  parameter_reads d k dflt s.
Proof.
  destruct d as [m|]; cbn.
  - destruct (m !! k) as [v|] eqn:Hk; cbn.
    + destruct v as [| | | |desc]; cbn; try discriminate.
      * intros [= <-]. by eapply reads_nil.
      * destruct (desc !! "value") as [[| s' | | |]|] eqn:Hv; cbn;
          try discriminate.
        intros [= <-]. by eapply reads_current.
    + intros [= <-]. by apply reads_absent.
  - intros [= <-]. by apply reads_absent.
Qed.

(** C8, as amended: when each of "ip" and "port" is absent from Data (or
    holds nil) or is a descriptor whose "value" is a string, [GetNetwork]
    returns the address, a colon and the port, with "0.0.0.0" for an absent
    address and "0" for an absent port; and it returns on no other Data. *)
Theorem GetNetwork_well_formed (p : Programs.programData) :
  (forall ip port : string,
      parameter_reads (Programs.Data p) "ip" "0.0.0.0" ip ->
      parameter_reads (Programs.Data p) "port" "0" port ->
      Programs.GetNetwork p = Return (ip +:+ ":" +:+ port)) /\
  (forall s : string,
      Programs.GetNetwork p = Return s ->
      exists ip port : string,
        parameter_reads (Programs.Data p) "ip" "0.0.0.0" ip /\
        parameter_reads (Programs.Data p) "port" "0" port /\
        s = ip +:+ ":" +:+ port).
Proof.
  unfold Programs.GetNetwork, Programs.GetData. split.
  - intros ip port Hip Hport.
    cbv zeta. rewrite (read_parameter _ _ _ _ Hip).
    rewrite (read_parameter _ _ _ _ Hport). reflexivity.
  - intros s. cbv zeta.
    destruct (if is_nil (index (Programs.Data p) "ip") then _ else _)
      as [ip|] eqn:Hip; [|discriminate].
    destruct (if is_nil (index (Programs.Data p) "port") then _ else _)
      as [port|] eqn:Hport; [|discriminate].
    intros [= <-]. exists ip, port.
    split; [|split]; [by apply read_parameter_inv..|reflexivity].
Qed.

(** The amended statement at a program with an address and a port, and the
    defaults at a program with neither. *)
Lemma GetNetwork_well_formed_witness :
  Programs.GetNetwork
    (Samples.program (Environments.Direct Samples.std_fresh)
                     (Some Samples.data_net))
  = Return "10.0.0.7:25565" /\
  Programs.GetNetwork
    (Samples.program (Environments.Direct Samples.std_fresh) (Some ∅))
  = Return "0.0.0.0:0".
Proof.
  split.
  - apply (proj1 (GetNetwork_well_formed _) "10.0.0.7" "25565").
    + eapply reads_current; [reflexivity| |]; vm_compute; reflexivity.
    + eapply reads_current; [reflexivity| |]; vm_compute; reflexivity.
  - apply (proj1 (GetNetwork_well_formed _) "0.0.0.0" "0").
    + apply reads_absent. vm_compute. reflexivity.
    + apply reads_absent. vm_compute. reflexivity.
Defined.

(** C8, as stated, fails on a program whose port descriptor holds a JSON
    number: the assertion to a string panics and nothing is returned. *)
Lemma GetNetwork_numeric_port_panics :
  ~ exists s : string,
      Programs.GetNetwork
        (Samples.program (Environments.Direct Samples.std_fresh)
                         (Some Samples.data_numeric_port))
      = Return s.
Proof. intros [s Hs]. vm_compute in Hs. discriminate. Qed.

(** ** Edit *)

Lemma Edit_step_insert (k : string) (v : value) (m : gmap string value) :
  Programs.Edit_step k v (Some m) = Some (Some (<[k:=v]> m)).
Proof.
  unfold Programs.Edit_step.
  destruct (is_nil v || is_empty_string v); cbn; [|reflexivity].
  by rewrite insert_delete_eq.
Qed.

(** The loop of [Edit] stores every supplied entry as it is, the empty and
    the nil ones included: the result is the supplied map laid over Data. *)
Lemma Edit_loop_union (data m : gmap string value) :
  Programs.Edit_loop data (Some m) = Some (Some (data ∪ m)).
Proof.
  unfold Programs.Edit_loop.
  apply (map_fold_weak_ind
           (fun r data' => r = Some (Some (data' ∪ m)))).
  - by rewrite (left_id_L ∅ (∪)).
  - intros k v data' r _ ->. cbn.
    rewrite Edit_step_insert. by rewrite insert_union_l.
Qed.

Lemma Edit_supplied_keys_stay (os : OS) (data m : gmap string value)
      (p : Programs.programData) (tr : list Event) :
  Programs.Data p = Some m ->
  exists p',
    Programs.Edit os data p tr
    = Return (programsSave os (Programs.Identifier p), p',
              tr ++ [EvSave (Programs.Identifier p)]) /\
    Programs.Data p' = Some (data ∪ m) /\
    forall k v, data !! k = Some v ->
                Programs.Data p' ≫= (.!! k) = Some v.
Proof.
  intros Hm. unfold Programs.Edit. monad_run. rewrite Hm, Edit_loop_union.
  eexists. split; [reflexivity|]. split; [reflexivity|].
  intros k v Hk. cbn. by apply lookup_union_Some_l.
Qed.

(** C1 at the failing input: with "port" in Data, [Edit] of "port" to the
    empty string returns normally and "port" is still a key of Data, now
    bound to the empty string; [GetNetwork] then panics on that entry. *)
Theorem Edit_empty_value_keeps_key :
  exists p',
    Programs.Edit Samples.os_ok {[ "port" := VString "" ]}
      (Samples.program (Environments.Direct Samples.std_fresh)
                       (Some Samples.data_net)) []
    = Return (None, p', [EvSave "s1"]) /\
    Programs.Data p' ≫= (.!! "port") = Some (VString "") /\
    Programs.GetNetwork p'
    = Panic "interface conversion: interface {} is not map[string]interface {}".
Proof.
  eexists. split; [vm_compute; reflexivity|].
  split; vm_compute; reflexivity.
Qed.

(** ** The environment while a process is running, and after *)

(** A running environment tracks a command that has a process. *)
Lemma IsRunning_tracked (os : OS) (e : Environments.Environment) :
  Environments.IsRunning os e = true ->
  exists c p, Environments.mainProcess e = Some c /\ Process c = Some p.
Proof.
  destruct e as [s|t]; cbn;
    [unfold Standard.IsRunning | unfold Tty.IsRunning];
    (destruct (_ : option Cmd) as [c|]; [|discriminate]);
    (destruct (Process c) as [p|] eqn:Hp; [|discriminate]);
    intros _; by exists c, p.
Qed.

(** C3: while [IsRunning] holds, [ExecuteAsync] on either implementation
    returns the error "A process is already running (<pid>)" with the pid of
    the tracked process, and leaves the environment, the process handle
    included, and the operating system untouched. *)
Theorem ExecuteAsync_already_running (os : OS) (e : Environments.Environment)
        (cmd : string) (args : list string) (tr : list Event) :
  Environments.IsRunning os e = true ->
  exists c p,
    Environments.mainProcess e = Some c /\
    Process c = Some p /\
    Environments.ExecuteAsync os cmd args e tr
    = Return (Some (errors_New
                ("A process is already running (" +:+ Itoa (Pid p) +:+ ")")),
              e, tr).
Proof.
  intros Hrun. destruct (IsRunning_tracked os e Hrun) as (c & p & Hc & Hp).
  exists c, p. split; [done|]. split; [done|].
  destruct e as [s|t]; cbn in Hrun, Hc |- *;
    unfold Environments.ExecuteAsync, Environments.dispatch.
  - unfold Standard.ExecuteAsync. monad_run.
    rewrite Hrun, Hc. cbn. rewrite Hp. reflexivity.
  - unfold Tty.ExecuteAsync. monad_run.
    rewrite Hrun, Hc. cbn. rewrite Hp. reflexivity.
Qed.

Lemma ExecuteAsync_already_running_witness :
  (exists c p,
     Environments.mainProcess (Environments.Direct Samples.std_started) = Some c /\
     Process c = Some p /\
     Environments.ExecuteAsync Samples.os_ok "java" ["-jar"; "server.jar"]
       (Environments.Direct Samples.std_started) []
     = Return (Some (errors_New
                 ("A process is already running (" +:+ Itoa (Pid p) +:+ ")")),
               Environments.Direct Samples.std_started, [])) /\
  (exists c p,
     Environments.mainProcess (Environments.PTY Samples.tty_started) = Some c /\
     Process c = Some p /\
     Environments.ExecuteAsync Samples.os_ok "java" ["-jar"; "server.jar"]
       (Environments.PTY Samples.tty_started) []
     = Return (Some (errors_New
                 ("A process is already running (" +:+ Itoa (Pid p) +:+ ")")),
               Environments.PTY Samples.tty_started, [])).
Proof.
  split.
  - apply (ExecuteAsync_already_running Samples.os_ok
             (Environments.Direct Samples.std_started)). reflexivity.
  - apply (ExecuteAsync_already_running Samples.os_ok
             (Environments.PTY Samples.tty_started)). reflexivity.
Defined.

(** The message for the sample environment spells out its pid. *)
Example already_running_message :
  Environments.ExecuteAsync Samples.os_ok "java" []
    (Environments.Direct Samples.std_started) []
  = Return (Some (errors_New "A process is already running (4242)"),
            Environments.Direct Samples.std_started, []).
Proof. vm_compute. reflexivity. Qed.

Lemma Kill_running (os : OS) (e : Environments.Environment) (tr : list Event)
      (c : Cmd) (p : os_Process) :
  Environments.IsRunning os e = true ->
  Environments.mainProcess e = Some c -> Process c = Some p ->
  Environments.Kill os e tr
  = Return (processKill os (Pid p), Environments.set_mainProcess None e,
            tr ++ [EvKill (Pid p); EvRelease (Pid p)]).
Proof.
  intros Hrun Hc Hp.
  destruct e as [s|t]; cbn in Hrun, Hc |- *;
    unfold Environments.Kill, Environments.dispatch;
    [unfold Standard.Kill | unfold Tty.Kill];
    monad_run; rewrite Hrun, Hc; cbn; rewrite Hp; cbn;
    rewrite <- app_assoc; cbn; done.
Qed.

(** C6: [Kill] on an environment that is not running returns nil and changes
    neither the environment nor the trace; on a running one it signals the
    tracked process, releases it, returns what the signal returned and leaves
    the process handle nil, every other field being as before. *)
Theorem Kill_spec (os : OS) (e : Environments.Environment) (tr : list Event) :
  (Environments.IsRunning os e = false ->
   Environments.Kill os e tr = Return (None, e, tr)) /\
  (Environments.IsRunning os e = true ->
   exists c p,
     Environments.mainProcess e = Some c /\
     Process c = Some p /\
     Environments.Kill os e tr
     = Return (processKill os (Pid p),
               Environments.set_mainProcess None e,
               tr ++ [EvKill (Pid p); EvRelease (Pid p)]) /\
     Environments.mainProcess (Environments.set_mainProcess None e) = None /\
     forall os',
       Environments.IsRunning os' (Environments.set_mainProcess None e) = false).
Proof.
  split.
  - intros Hrun.
    destruct e as [s|t]; cbn in Hrun |- *;
      unfold Environments.Kill, Environments.dispatch;
      [unfold Standard.Kill | unfold Tty.Kill];
      monad_run; rewrite Hrun; reflexivity.
  - intros Hrun.
    destruct (IsRunning_tracked os e Hrun) as (c & p & Hc & Hp).
    exists c, p. rewrite (Kill_running os e tr c p Hrun Hc Hp).
    do 3 (split; [done|]).
    destruct e as [s|t]; done.
Qed.

Lemma Kill_spec_witness :
  Environments.Kill Samples.os_down (Environments.Direct Samples.std_started) []
  = Return (None, Environments.Direct Samples.std_started, []) /\
  exists c p,
     Environments.mainProcess (Environments.PTY Samples.tty_started) = Some c /\
     Process c = Some p /\
     Environments.Kill Samples.os_ok (Environments.PTY Samples.tty_started) []
     = Return (processKill Samples.os_ok (Pid p),
               Environments.set_mainProcess None
                 (Environments.PTY Samples.tty_started),
               [] ++ [EvKill (Pid p); EvRelease (Pid p)]) /\
     Environments.mainProcess
       (Environments.set_mainProcess None
          (Environments.PTY Samples.tty_started)) = None /\
     forall os',
       Environments.IsRunning os'
         (Environments.set_mainProcess None
            (Environments.PTY Samples.tty_started)) = false.
Proof.
  split.
  - apply (proj1 (Kill_spec Samples.os_down
                    (Environments.Direct Samples.std_started) [])).
    reflexivity.
  - apply (proj2 (Kill_spec Samples.os_ok
                    (Environments.PTY Samples.tty_started) [])).
    reflexivity.
Defined.

(** C5, as amended: [ExecuteInMainProcess] returns the error "Main process
    has not been started" whenever [IsRunning] is false, whether or not an
    input stream was established earlier, and then writes nothing; when
    [IsRunning] is true and there is an input stream, it writes the text
    followed by a carriage return to that stream and returns what the write
    returned. *)
Theorem ExecuteInMainProcess_spec (os : OS) (e : Environments.Environment)
        (input : string) (tr : list Event) :
  (Environments.IsRunning os e = false ->
   Environments.ExecuteInMainProcess os input e tr
   = Return (Some (errors_New "Main process has not been started"), e, tr)) /\
  (Environments.IsRunning os e = true ->
   forall w : Writer,
     Environments.stdInWriter e = Some w ->
     Environments.ExecuteInMainProcess os input e tr
     = Return (writeString os w (input +:+ CR), e,
               tr ++ [EvWriteString w (input +:+ CR)])).
Proof.
  split.
  - intros Hrun.
    destruct e as [s|t]; cbn in Hrun |- *;
      unfold Environments.ExecuteInMainProcess, Environments.dispatch;
      [unfold Standard.ExecuteInMainProcess | unfold Tty.ExecuteInMainProcess];
      monad_run; rewrite Hrun; reflexivity.
  - intros Hrun w Hw.
    destruct e as [s|t]; cbn in Hrun, Hw |- *;
      unfold Environments.ExecuteInMainProcess, Environments.dispatch;
      [unfold Standard.ExecuteInMainProcess | unfold Tty.ExecuteInMainProcess];
      monad_run; rewrite Hrun, Hw; reflexivity.
Qed.

Lemma ExecuteInMainProcess_spec_witness :
  Environments.ExecuteInMainProcess Samples.os_down "stop"
    (Environments.Direct Samples.std_started) []
  = Return (Some (errors_New "Main process has not been started"),
            Environments.Direct Samples.std_started, []) /\
  Environments.ExecuteInMainProcess Samples.os_ok "stop"
    (Environments.PTY Samples.tty_started) []
  = Return (writeString Samples.os_ok (File (Some 5%nat)) ("stop" +:+ CR),
            Environments.PTY Samples.tty_started,
            [] ++ [EvWriteString (File (Some 5%nat)) ("stop" +:+ CR)]).
Proof.
  split.
  - apply (proj1 (ExecuteInMainProcess_spec Samples.os_down
                    (Environments.Direct Samples.std_started) "stop" [])).
    reflexivity.
  - apply (proj2 (ExecuteInMainProcess_spec Samples.os_ok
                    (Environments.PTY Samples.tty_started) "stop" [])).
    + reflexivity.
    + reflexivity.
Defined.

(** The sample environment after [Kill] is what [Kill] leaves behind. *)
Example std_killed_reached :
  Environments.Kill Samples.os_ok (Environments.Direct Samples.std_started) []
  = Return (None, Environments.Direct Samples.std_killed,
            [EvKill 4242; EvRelease 4242]).
Proof. vm_compute. reflexivity. Qed.

(** C5, as stated, fails after a [Kill]: the input stream of the killed
    process is still there, and the call is refused as not started all the
    same. *)
Lemma ExecuteInMainProcess_refused_with_stream :
  Environments.stdInWriter (Environments.Direct Samples.std_killed)
  = Some (Pipe 3) /\
  Environments.ExecuteInMainProcess Samples.os_ok "stop"
    (Environments.Direct Samples.std_killed) []
  = Return (Some (errors_New "Main process has not been started"),
            Environments.Direct Samples.std_killed, []).
Proof. split; vm_compute; reflexivity. Qed.

(** ** Install *)

Lemma env_DisplayToConsole (msg : string) (p : Programs.programData)
      (tr : list Event) :
  Programs.env (Environments.DisplayToConsole msg) p tr
  = Return (tt,
            Programs.set_Environment
              (Environments.console_written msg (Programs.Environment p)) p,
            tr).
Proof.
  unfold Programs.env, zoom, Environments.DisplayToConsole,
    Environments.dispatch.
  by destruct (Programs.Environment p).
Qed.

(** A call on the environment of a program changes nothing else of it. *)
Lemma env_frame {A} (m : M Environments.Environment A)
      (p p' : Programs.programData) (tr tr' : list Event) (a : A) :
  Programs.env m p tr = Return (a, p', tr') ->
  exists e', m (Programs.Environment p) tr = Return (a, e', tr') /\
             p' = Programs.set_Environment e' p.
Proof.
  unfold Programs.env, zoom.
  destruct (m (Programs.Environment p) tr) as [[[a1 e1] tr1]|]; [|discriminate].
  intros [= <- <- <-]. by exists e1.
Qed.

Lemma set_Environment_twice (e1 e2 : Environments.Environment)
      (p : Programs.programData) :
  Programs.set_Environment e2 (Programs.set_Environment e1 p)
  = Programs.set_Environment e2 p.
Proof. reflexivity. Qed.

Lemma Stop_frame (os : OS) (p p' : Programs.programData)
      (tr tr' : list Event) (err : option error) :
  Programs.Stop_ os p tr = Return (err, p', tr') ->
  exists e', p' = Programs.set_Environment e' p.
Proof.
  unfold Programs.Stop_. monad_run.
  destruct (Programs.env _ p tr) as [[[e1 p1] tr1]|] eqn:Hx; [|discriminate].
  apply env_frame in Hx as (env1 & _ & ->).
  destruct e1; rewrite env_DisplayToConsole; intros [= <- <- <-];
    eexists; apply set_Environment_twice.
Qed.




(** The pipeline A (succeeds), B (fails), C (succeeds): [Install] returns the
    error of B after running A and B, and the directory that C would create
    is not in the trace. *)
Example Install_ABC :
  exists p',
    Programs.Install Samples.os_ok generate_ABC program_stopped []
    = Return ((Some (errors_New "B failed"),
               [(step_A, None); (step_B, Some (errors_New "B failed"))]),
              p',
              [EvMkdirAll "/var/lib/pufferd/servers/s1" perm_0755;
               EvMkdirAll "A" perm_0755;
               EvLogError "Error running installer: "
                          (Some (errors_New "B failed"))]).
Proof. eexists. vm_compute. reflexivity. Qed.


(** ** Start *)




Lemma IsRunning_console_written (os : OS) (msg : string)
      (e : Environments.Environment) :
  Environments.IsRunning os (Environments.console_written msg e)
  = Environments.IsRunning os e.
Proof. by destruct e. Qed.

Lemma mainProcess_console_written (msg : string) (e : Environments.Environment) :
  Environments.mainProcess (Environments.console_written msg e)
  = Environments.mainProcess e.
Proof. by destruct e. Qed.






(** ** WaitForMainProcessFor *)

(** The timer goroutine, left alone from its check to the clearing of the
    handle, does what [Kill] does in one go. *)
Lemma timer_steps_are_Kill (base : OS) (timeout : Z)
      (st st' : Concurrent.state) (r : option error) :
  Concurrent.tpc st = Concurrent.T_check ->
  Concurrent.IsRunning base st = true ->
  Concurrent.run base timeout
    [Concurrent.Timer; Concurrent.Timer; Concurrent.Timer; Concurrent.Timer] st
  = Some st' ->
  Concurrent.tpc st' = Concurrent.T_assign r ->
  Environments.Kill (Concurrent.os_of base (Concurrent.process st))
    (Concurrent.env st) (Concurrent.calls st)
  = Return (r, Concurrent.env st', Concurrent.calls st').
Proof.
  intros Hpc Hrun.
  destruct (IsRunning_tracked _ _ Hrun) as (c & p & Hc & Hp).
  rewrite (Kill_running _ _ (Concurrent.calls st) c p Hrun Hc Hp).
  cbn [Concurrent.run Concurrent.step].
  unfold Concurrent.timer_step at 1. rewrite Hpc. cbn.
  unfold Concurrent.IsRunning in Hrun. unfold Concurrent.IsRunning.
  cbn. rewrite Hrun. cbn.
  unfold Concurrent.timer_step; cbn. rewrite Hc. cbn. rewrite Hp. cbn.
  rewrite Hc. cbn. rewrite Hp. cbn.
  intros [= <-]. cbn. intros [= <-].
  by rewrite <- app_assoc.
Qed.

(** C4 at the failing input: the timer expires while the process is still
    running, and the process then terminates on its own before the kill
    signal is sent. The waiting thread and the timer goroutine take the same
    steps in both schedules; the call returns nil when the waiting thread
    reads its result first, and the error of [Kill] when the timer goroutine
    stores it first. *)
Theorem WaitForMainProcessFor_result_races (base : OS) (timeout : Z)
        (e : Environments.Environment) :
  (0 < timeout)%Z ->
  Environments.IsRunning (Concurrent.os_of base Concurrent.Alive) e = true ->
  Environments.wait e = 1%Z ->
  exists st1 st2,
    Concurrent.run base timeout Concurrent.schedule_return_first
      (Concurrent.called_on e) = Some st1 /\
    Concurrent.run base timeout Concurrent.schedule_assign_first
      (Concurrent.called_on e) = Some st2 /\
    Concurrent.wpc st1 = Concurrent.W_done None /\
    Concurrent.wpc st2 = Concurrent.W_done (Some Concurrent.ErrProcessDone) /\
    Concurrent.tpc st1 = Concurrent.T_done /\
    Concurrent.tpc st2 = Concurrent.T_done /\
    Concurrent.tmr st1 = Concurrent.Fired /\
    Concurrent.tmr st2 = Concurrent.Fired /\
    forall l,
      Concurrent.of_thread l Concurrent.schedule_return_first
      = Concurrent.of_thread l Concurrent.schedule_assign_first.
Proof.
  intros Ht Hrun Hw.
  destruct (IsRunning_tracked _ _ Hrun) as (c & p & Hc & Hp).
  destruct timeout as [|n|n]; try lia.
  destruct c as [? ? ? ? ? ? ? ? pr]. cbn in Hp. subst pr.
  destruct e as [[? ? ? m ? w]|[? ? ? m ? w]]; cbn in Hc, Hw; subst m w;
    (eexists _, _; split; [vm_compute; reflexivity|];
     split; [vm_compute; reflexivity|];
     do 6 (split; [reflexivity|]);
     intros []; reflexivity).
Qed.

Lemma WaitForMainProcessFor_result_races_witness :
  exists st1 st2,
    Concurrent.run Samples.os_ok 100 Concurrent.schedule_return_first
      (Concurrent.called_on (Environments.Direct Samples.std_started))
    = Some st1 /\
    Concurrent.run Samples.os_ok 100 Concurrent.schedule_assign_first
      (Concurrent.called_on (Environments.Direct Samples.std_started))
    = Some st2 /\
    Concurrent.wpc st1 = Concurrent.W_done None /\
    Concurrent.wpc st2 = Concurrent.W_done (Some Concurrent.ErrProcessDone) /\
    Concurrent.tpc st1 = Concurrent.T_done /\
    Concurrent.tpc st2 = Concurrent.T_done /\
    Concurrent.tmr st1 = Concurrent.Fired /\
    Concurrent.tmr st2 = Concurrent.Fired /\
    forall l,
      Concurrent.of_thread l Concurrent.schedule_return_first
      = Concurrent.of_thread l Concurrent.schedule_assign_first.
Proof.
  apply (WaitForMainProcessFor_result_races Samples.os_ok 100
           (Environments.Direct Samples.std_started)).
  - reflexivity.
  - reflexivity.
  - reflexivity.
Defined.

(** The two orderly runs: when the timer expires first, [Kill] is called, the
    kill ends the process and the wait is released by the reaper; when the
    process terminates first, the timer is stopped and never runs. Either way
    the call returns nil. *)
Example WaitForMainProcessFor_timeout :
  exists st,
    Concurrent.run Samples.os_ok 100 Concurrent.schedule_timeout
      (Concurrent.called_on (Environments.Direct Samples.std_started))
    = Some st /\
    Concurrent.wpc st = Concurrent.W_done None /\
    Concurrent.tmr st = Concurrent.Fired /\
    Concurrent.process st = Concurrent.Reaped /\
    Concurrent.calls st = [EvKill 4242; EvRelease 4242] /\
    Environments.mainProcess (Concurrent.env st) = None.
Proof. eexists. split; [vm_compute; reflexivity|]. repeat split. Qed.

Example WaitForMainProcessFor_completion :
  exists st,
    Concurrent.run Samples.os_ok 100 Concurrent.schedule_completion
      (Concurrent.called_on (Environments.Direct Samples.std_started))
    = Some st /\
    Concurrent.wpc st = Concurrent.W_done None /\
    Concurrent.tmr st = Concurrent.Stopped /\
    Concurrent.tpc st = Concurrent.T_idle /\
    Concurrent.calls st = [].
Proof. eexists. split; [vm_compute; reflexivity|]. repeat split. Qed.

(** * Further properties of the code *)

(** ** ExecuteAsync when nothing is running *)

(** The spawning path of the Direct environment, in closed form. *)
Lemma Standard_ExecuteAsync_spawn (os : OS) (cmd : string)
      (args : list string) (s : Standard.standard) (tr : list Event) :
  Standard.IsRunning os s = false ->
  Standard.ExecuteAsync os cmd args s tr
  = Return
      (match cmdStart os (standard_command os s cmd args) with
       | inl _ => None
       | inr e => Some e
       end,
       {| Standard.RootDirectory := Standard.RootDirectory s;
          Standard.ConsoleBuffer := Standard.ConsoleBuffer s;
          Standard.WSManager := Standard.WSManager s;
          Standard.mainProcess :=
            Some (match cmdStart os (standard_command os s cmd args) with
                  | inl pid =>
                      set_Process (standard_command os s cmd args)
                                  (Some {| Pid := pid |})
                  | inr _ => standard_command os s cmd args
                  end);
          Standard.stdInWriter :=
            match stdinPipe os (standard_command os s cmd args) with
            | inl fd => Some (Pipe fd)
            | inr _ => None
            end;
          Standard.wait := 1 |},
       tr ++ [EvStdinPipe (standard_command os s cmd args)]
          ++ match stdinPipe os (standard_command os s cmd args) with
             | inl _ => []
             | inr e => [EvLogError "Error starting process" (Some e)]
             end
          ++ [EvStart (standard_command os s cmd args); EvGo Reaper]
          ++ match cmdStart os (standard_command os s cmd args) with
             | inl _ => []
             | inr e =>
                 if bool_decide (Error e ≠ "exit status 1")
                 then [EvLogError "Error starting process" (Some e)]
                 else []
             end).
Proof.
  intros Hrun. unfold Standard.ExecuteAsync. monad_run. rewrite Hrun.
  exec_run. unfold set_output, exec_Command.
  cbn [Path Args Dir Env Stdout Stderr Setctty Setsid Process].
  fold (standard_command os s cmd args).
  set (c := standard_command os s cmd args).
  destruct (stdinPipe os c) as [fd|e0]; exec_run;
    (destruct (cmdStart os c) as [pid|e1]; exec_run;
     [|destruct (bool_decide _); exec_run]);
    unfold Standard.set_ConsoleBuffer; destruct s; cbn;
    rewrite <- ?app_assoc; reflexivity.
Qed.

(** The spawning path of the PTY environment, in closed form. *)
Lemma Tty_ExecuteAsync_spawn (os : OS) (cmd : string)
      (args : list string) (s : Tty.tty) (tr : list Event) :
  Tty.IsRunning os s = false ->
  Tty.ExecuteAsync os cmd args s tr
  = Return
      (match ptyStart os (tty_command os s cmd args) with
       | inl _ => None
       | inr e => Some e
       end,
       {| Tty.RootDirectory := Tty.RootDirectory s;
          Tty.ConsoleBuffer := Tty.ConsoleBuffer s;
          Tty.WSManager := Tty.WSManager s;
          Tty.mainProcess :=
            Some (match ptyStart os (tty_command os s cmd args) with
                  | inl (fd, pid) =>
                      set_Process
                        (set_output (tty_command os s cmd args)
                                    (Some (File (Some fd))))
                        (Some {| Pid := pid |})
                  | inr _ => tty_command os s cmd args
                  end);
          Tty.stdInWriter :=
            Some (File match ptyStart os (tty_command os s cmd args) with
                       | inl (fd, _) => Some fd
                       | inr _ => None
                       end);
          Tty.wait := 1 |},
       tr ++ [EvPtyStart (tty_command os s cmd args);
              EvGo (CopyAndReap (Tty.createWrapper os s)
                      match ptyStart os (tty_command os s cmd args) with
                      | inl (fd, _) => Some fd
                      | inr _ => None
                      end)]
          ++ match ptyStart os (tty_command os s cmd args) with
             | inl _ => []
             | inr e => [EvLogError "Error starting process" (Some e)]
             end).
Proof.
  intros Hrun. unfold Tty.ExecuteAsync. monad_run. rewrite Hrun.
  exec_run. unfold exec_Command.
  cbn [Path Args Dir Env Stdout Stderr Setctty Setsid Process].
  fold (tty_command os s cmd args).
  set (c := tty_command os s cmd args).
  destruct (ptyStart os c) as [[fd pid]|e1]; exec_run;
    destruct s; cbn; rewrite <- ?app_assoc; reflexivity.
Qed.

Lemma Standard_IsRunning_probe (os : OS) (s : Standard.standard) (c : Cmd)
      (pid : Z) :
  Standard.mainProcess s = Some c -> Process c = Some {| Pid := pid |} ->
  Standard.IsRunning os s = probe os pid.
Proof. unfold Standard.IsRunning, probe. by intros -> ->. Qed.






(** ** One process at a time *)



Lemma ExecuteAsync_running (os : OS) (e : Environments.Environment)
      (cmd : string) (args : list string) (tr : list Event) (c : Cmd)
      (pid : Z) :
  Environments.IsRunning os e = true ->
  Environments.mainProcess e = Some c -> Process c = Some {| Pid := pid |} ->
  Environments.ExecuteAsync os cmd args e tr
  = Return (Some (errors_New
              ("A process is already running (" +:+ Itoa pid +:+ ")")),
            e, tr).
Proof.
  intros Hrun Hc Hp.
  destruct e as [s|t]; cbn in Hrun, Hc |- *;
    unfold Environments.ExecuteAsync, Environments.dispatch;
    [unfold Standard.ExecuteAsync | unfold Tty.ExecuteAsync];
    monad_run; rewrite Hrun, Hc; cbn; rewrite Hp; reflexivity.
Qed.



(** X4: the error of [Cmd.StdinPipe] is logged and then overwritten by the
    result of [Cmd.Start]. When the pipe cannot be made and the process
    starts all the same, [ExecuteAsync] of the Direct environment returns nil
    and leaves the environment without an input stream; as long as the
    process is alive, [ExecuteInMainProcess] then panics on the nil writer
    instead of returning an error. *)
Theorem Standard_ExecuteAsync_pipe_failure (os : OS) (cmd : string)
        (args : list string) (s : Standard.standard) (tr : list Event)
        (e0 : error) (pid : Z) :
  Standard.IsRunning os s = false ->
  stdinPipe os (standard_command os s cmd args) = inr e0 ->
  cmdStart os (standard_command os s cmd args) = inl pid ->
  exists s',
    Standard.ExecuteAsync os cmd args s tr
    = Return (None, s',
              tr ++ [EvStdinPipe (standard_command os s cmd args);
                     EvLogError "Error starting process" (Some e0);
                     EvStart (standard_command os s cmd args);
                     EvGo Reaper]) /\
    Standard.stdInWriter s' = None /\
    forall os' input tr',
      probe os' pid = true ->
      Standard.ExecuteInMainProcess os' input s' tr'
      = Panic "nil pointer dereference".
Proof.
  intros Hrun Hpipe Hstart.
  rewrite (Standard_ExecuteAsync_spawn os cmd args s tr Hrun), Hpipe, Hstart.
  eexists. split; [reflexivity|]. split; [reflexivity|].
  intros os' input tr' Hprobe.
  unfold Standard.ExecuteInMainProcess. monad_run.
  erewrite Standard_IsRunning_probe; [|reflexivity|reflexivity].
  rewrite Hprobe. reflexivity.
Qed.

Lemma Standard_ExecuteAsync_pipe_failure_witness :
  exists s',
    Standard.ExecuteAsync os_no_pipe "java" [] Samples.std_fresh []
    = Return (None, s',
              [] ++ [EvStdinPipe
                       (standard_command os_no_pipe Samples.std_fresh "java" []);
                     EvLogError "Error starting process"
                       (Some (os_Error "pipe: too many open files"));
                     EvStart
                       (standard_command os_no_pipe Samples.std_fresh "java" []);
                     EvGo Reaper]) /\
    Standard.stdInWriter s' = None /\
    forall os' input tr',
      probe os' 4242 = true ->
      Standard.ExecuteInMainProcess os' input s' tr'
      = Panic "nil pointer dereference".
Proof.
  apply (Standard_ExecuteAsync_pipe_failure os_no_pipe "java" []
           Samples.std_fresh [] (os_Error "pipe: too many open files") 4242).
  - reflexivity.
  - reflexivity.
  - reflexivity.
Defined.

(** ** The lifecycle calls of a program *)

Lemma Kill_not_running (os : OS) (e : Environments.Environment)
      (tr : list Event) :
  Environments.IsRunning os e = false ->
  Environments.Kill os e tr = Return (None, e, tr).
Proof.
  intros Hrun.
  destruct e as [s|t]; cbn in Hrun |- *;
    unfold Environments.Kill, Environments.dispatch;
    [unfold Standard.Kill | unfold Tty.Kill];
    monad_run; rewrite Hrun; reflexivity.
Qed.

Lemma ExecuteInMainProcess_not_running (os : OS)
      (e : Environments.Environment) (input : string) (tr : list Event) :
  Environments.IsRunning os e = false ->
  Environments.ExecuteInMainProcess os input e tr
  = Return (Some (errors_New "Main process has not been started"), e, tr).
Proof.
  intros Hrun.
  destruct e as [s|t]; cbn in Hrun |- *;
    unfold Environments.ExecuteInMainProcess, Environments.dispatch;
    [unfold Standard.ExecuteInMainProcess | unfold Tty.ExecuteInMainProcess];
    monad_run; rewrite Hrun; reflexivity.
Qed.

Lemma ExecuteInMainProcess_running (os : OS)
      (e : Environments.Environment) (input : string) (tr : list Event) :
  Environments.IsRunning os e = true ->
  Environments.ExecuteInMainProcess os input e tr
  = match Environments.stdInWriter e with
    | Some w => Return (writeString os w (input +:+ CR), e,
                        tr ++ [EvWriteString w (input +:+ CR)])
    | None => Panic "nil pointer dereference"
    end.
Proof.
  intros Hrun.
  destruct e as [s|t]; cbn in Hrun |- *;
    unfold Environments.ExecuteInMainProcess, Environments.dispatch;
    [unfold Standard.ExecuteInMainProcess | unfold Tty.ExecuteInMainProcess];
    monad_run; rewrite Hrun; by destruct (_ : option Writer).
Qed.

Lemma env_run {A} (m : M Environments.Environment A)
      (p : Programs.programData) (tr : list Event) :
  Programs.env m p tr
  = match m (Programs.Environment p) tr with
    | Return (a, e', tr') => Return (a, Programs.set_Environment e' p, tr')
    | Panic r => Panic r
    end.
Proof. reflexivity. Qed.

Lemma ConsoleBuffer_console_written (msg : string)
      (e : Environments.Environment) :
  Environments.ConsoleBuffer (Environments.console_written msg e)
  = Environments.ConsoleBuffer e ++ [msg].
Proof. by destruct e. Qed.

(** X5: [Stop] is cooperative. On a program that is not running it writes
    nothing, returns the not-started error and displays "Failed to stop
    server". On a running program with an input stream it writes the stop
    command followed by a carriage return, returns what the write returned
    and displays "Server stopped" as soon as the write succeeded. It never
    signals the process and never clears the process handle: a program that
    was running is still running when [Stop] returns. *)
Theorem Stop_spec (os : OS) (p : Programs.programData) (tr : list Event) :
  (Programs.IsRunning os p = false ->
   Programs.Stop_ os p tr
   = Return (Some (errors_New "Main process has not been started"),
             Programs.set_Environment
               (Environments.console_written ("Failed to stop server" +:+ LF)
                  (Programs.Environment p)) p,
             tr)) /\
  (Programs.IsRunning os p = true ->
   forall w, Environments.stdInWriter (Programs.Environment p) = Some w ->
   exists p',
     Programs.Stop_ os p tr
     = Return (writeString os w (Programs.Stop (Programs.RunData p) +:+ CR),
               p',
               tr ++ [EvWriteString w
                        (Programs.Stop (Programs.RunData p) +:+ CR)]) /\
     Programs.Environment p'
     = Environments.console_written
         (if writeString os w (Programs.Stop (Programs.RunData p) +:+ CR)
            is Some _
          then "Failed to stop server" +:+ LF
          else "Server stopped" +:+ LF)
         (Programs.Environment p) /\
     Environments.mainProcess (Programs.Environment p')
     = Environments.mainProcess (Programs.Environment p) /\
     Programs.IsRunning os p' = true).
Proof.
  split.
  - intros Hrun. unfold Programs.Stop_. monad_run.
    rewrite env_run, (ExecuteInMainProcess_not_running _ _ _ _ Hrun).
    by rewrite env_DisplayToConsole.
  - intros Hrun w Hw. unfold Programs.Stop_. monad_run.
    rewrite env_run, (ExecuteInMainProcess_running _ _ _ _ Hrun), Hw.
    destruct (writeString os w _) as [e|]; rewrite env_DisplayToConsole;
      (eexists; split; [reflexivity|]; cbn;
       split; [reflexivity|];
       split; [apply mainProcess_console_written|];
       unfold Programs.IsRunning; cbn;
       by rewrite IsRunning_console_written).
Qed.

Lemma Stop_spec_witness :
  Programs.Stop_ Samples.os_ok program_stopped []
  = Return (Some (errors_New "Main process has not been started"),
            Programs.set_Environment
              (Environments.console_written ("Failed to stop server" +:+ LF)
                 (Programs.Environment program_stopped)) program_stopped,
            []) /\
  exists p',
    Programs.Stop_ Samples.os_ok
      (Samples.program (Environments.PTY Samples.tty_started) None) []
    = Return (writeString Samples.os_ok (File (Some 5%nat)) ("stop" +:+ CR),
              p', [] ++ [EvWriteString (File (Some 5%nat)) ("stop" +:+ CR)]) /\
    Programs.Environment p'
    = Environments.console_written
        (if writeString Samples.os_ok (File (Some 5%nat)) ("stop" +:+ CR)
           is Some _
         then "Failed to stop server" +:+ LF
         else "Server stopped" +:+ LF)
        (Environments.PTY Samples.tty_started) /\
    Environments.mainProcess (Programs.Environment p')
    = Environments.mainProcess (Environments.PTY Samples.tty_started) /\
    Programs.IsRunning Samples.os_ok p' = true.
Proof.
  split.
  - apply (proj1 (Stop_spec Samples.os_ok program_stopped [])). reflexivity.
  - apply (proj2 (Stop_spec Samples.os_ok
                    (Samples.program (Environments.PTY Samples.tty_started)
                                     None) [])
             eq_refl (File (Some 5%nat)) eq_refl).
Defined.

(** X6: [Kill] of a program. On a program that is not running it signals
    nothing, returns nil and still displays "Server killed". On a running
    program it signals and releases the tracked pid, returns what the signal
    returned, displays "Server killed" or "Failed to kill server"
    accordingly, and in both cases leaves the process handle nil, so that
    [IsRunning] is false on every machine afterwards. *)
Theorem Program_Kill_spec (os : OS) (p : Programs.programData)
        (tr : list Event) :
  (Programs.IsRunning os p = false ->
   Programs.Kill os p tr
   = Return (None,
             Programs.set_Environment
               (Environments.console_written ("Server killed" +:+ LF)
                  (Programs.Environment p)) p,
             tr)) /\
  (Programs.IsRunning os p = true ->
   exists c pid p',
     Environments.mainProcess (Programs.Environment p) = Some c /\
     Process c = Some {| Pid := pid |} /\
     Programs.Kill os p tr
     = Return (processKill os pid, p', tr ++ [EvKill pid; EvRelease pid]) /\
     Programs.Environment p'
     = Environments.console_written
         (if processKill os pid is Some _
          then "Failed to kill server" +:+ LF
          else "Server killed" +:+ LF)
         (Environments.set_mainProcess None (Programs.Environment p)) /\
     forall os', Programs.IsRunning os' p' = false).
Proof.
  split.
  - intros Hrun. unfold Programs.Kill. monad_run.
    rewrite env_run, (Kill_not_running _ _ _ Hrun).
    by rewrite env_DisplayToConsole.
  - intros Hrun.
    destruct (IsRunning_tracked _ _ Hrun) as (c & [pid] & Hc & Hp).
    exists c, pid. unfold Programs.Kill. monad_run.
    rewrite env_run, (Kill_running _ _ _ c {| Pid := pid |} Hrun Hc Hp).
    cbn [Pid].
    destruct (processKill os pid) as [e|]; rewrite env_DisplayToConsole;
      (eexists; split; [done|]; split; [done|]; split; [reflexivity|];
       split; [reflexivity|]; intros os'; unfold Programs.IsRunning; cbn;
       rewrite IsRunning_console_written;
       by destruct (Programs.Environment p)).
Qed.

Lemma Program_Kill_spec_witness :
  Programs.Kill Samples.os_ok program_stopped []
  = Return (None,
            Programs.set_Environment
              (Environments.console_written ("Server killed" +:+ LF)
                 (Programs.Environment program_stopped)) program_stopped,
            []) /\
  exists c pid p',
    Environments.mainProcess (Programs.Environment program_running) = Some c /\
    Process c = Some {| Pid := pid |} /\
    Programs.Kill Samples.os_ok program_running []
    = Return (processKill Samples.os_ok pid, p',
              [] ++ [EvKill pid; EvRelease pid]) /\
    Programs.Environment p'
    = Environments.console_written
        (if processKill Samples.os_ok pid is Some _
         then "Failed to kill server" +:+ LF
         else "Server killed" +:+ LF)
        (Environments.set_mainProcess None
           (Programs.Environment program_running)) /\
    forall os', Programs.IsRunning os' p' = false.
Proof.
  split.
  - apply (proj1 (Program_Kill_spec Samples.os_ok program_stopped [])).
    reflexivity.
  - apply (proj2 (Program_Kill_spec Samples.os_ok program_running [])).
    reflexivity.
Defined.

(** X7: [Create] of a program never reports a failure: whatever the machine
    answers, it returns nil after asking once for the root directory with
    mode 0755, and the console gains "Allocating server" and "Server
    allocated"; nothing else of the program changes. *)
Theorem Program_Create_always_nil (p : Programs.programData)
        (tr : list Event) :
  Programs.Create p tr
  = Return (None,
            Programs.set_Environment
              (Environments.console_written ("Server allocated" +:+ LF)
                 (Environments.console_written ("Allocating server" +:+ LF)
                    (Programs.Environment p))) p,
            tr ++ [EvMkdir
                     (Environments.GetRootDirectory (Programs.Environment p))
                     perm_0755]).
Proof.
  unfold Programs.Create. monad_run.
  rewrite env_DisplayToConsole, env_run.
  cbn [Programs.Environment Programs.set_Environment].
  unfold Environments.Create, Environments.dispatch.
  destruct p as [r i e id d]; cbn [Programs.Environment].
  destruct e as [s|t]; cbn;
    [unfold Standard.Create | unfold Tty.Create]; monad_run;
    rewrite env_DisplayToConsole; reflexivity.
Qed.

(** X8: [Destroy] removes the root directory and does nothing else: it
    returns what the removal returned and leaves the program and its
    environment, the handle of a running process included, exactly as they
    were. *)
Theorem Program_Destroy_spec (os : OS) (p : Programs.programData)
        (tr : list Event) :
  Programs.Destroy os p tr
  = Return (removeAll os
              (Environments.GetRootDirectory (Programs.Environment p)),
            p,
            tr ++ [EvRemoveAll
                     (Environments.GetRootDirectory (Programs.Environment p))]).
Proof.
  unfold Programs.Destroy. rewrite env_run.
  unfold Environments.Delete, Environments.dispatch.
  destruct p as [r i e id d]; cbn [Programs.Environment].
  destruct e as [s|t];
    [unfold Standard.Delete | unfold Tty.Delete]; monad_run; reflexivity.
Qed.

(** ** What the lifecycle calls leave alone *)

Lemma same_definition_refl (p : Programs.programData) : same_definition p p.
Proof. unfold same_definition. by destruct p. Qed.

Lemma same_definition_trans (p1 p2 p3 : Programs.programData) :
  same_definition p1 p2 -> same_definition p2 p3 -> same_definition p1 p3.
Proof. unfold same_definition. intros -> ->. reflexivity. Qed.

Lemma same_definition_set (e : Environments.Environment)
      (p : Programs.programData) :
  same_definition p (Programs.set_Environment e p).
Proof. reflexivity. Qed.

Lemma same_definition_env {A} (m : M Environments.Environment A)
      (p p' : Programs.programData) (tr tr' : list Event) (a : A) :
  Programs.env m p tr = Return (a, p', tr') -> same_definition p p'.
Proof.
  intros Hx. apply env_frame in Hx as (e' & _ & ->).
  apply same_definition_set.
Qed.

Lemma Install_loop_same_definition (os : OS)
      (ops : list Operations.Operation) :
  forall (err0 : option error) (p p' : Programs.programData)
         (tr tr' : list Event)
         (r : option error * list (Operations.Operation * option error)),
    Programs.Install_loop os ops err0 p tr = Return (r, p', tr') ->
    same_definition p p'.
Proof.
  induction ops as [|op rest IH]; intros err0 p p' tr tr' r.
  - cbn. intros [= _ <- _]. apply same_definition_refl.
  - cbn [Programs.Install_loop]. monad_run.
    cbv beta iota delta [Programs.RunNext]. monad_run.
    destruct (Programs.env _ p tr) as [[[e1 p1] tr1]|] eqn:Hx; [|discriminate].
    apply same_definition_env in Hx.
    destruct e1 as [e|].
    + rewrite env_DisplayToConsole. intros [= _ <- _].
      eapply same_definition_trans; [exact Hx|apply same_definition_set].
    + destruct (Programs.Install_loop os rest None p1 tr1)
        as [[[r2 p2] tr2]|] eqn:Hrest; [|discriminate].
      intros [= _ <- _].
      eapply same_definition_trans; [exact Hx|by eapply IH].
Qed.

Lemma Program_Create_frame (p : Programs.programData) (tr : list Event) :
  exists e' tr', Programs.Create p tr
                 = Return (None, Programs.set_Environment e' p, tr').
Proof.
  unfold Programs.Create. monad_run.
  rewrite env_DisplayToConsole, env_run.
  cbn [Programs.Environment Programs.set_Environment].
  unfold Environments.Create, Environments.dispatch.
  destruct p as [r i e id d]; cbn [Programs.Environment].
  destruct e as [s|t]; cbn;
    [unfold Standard.Create | unfold Tty.Create]; monad_run;
    rewrite env_DisplayToConsole; by eexists _, _.
Qed.

Lemma Stop_same_definition (os : OS) (p p' : Programs.programData)
      (tr tr' : list Event) (err : option error) :
  Programs.Stop_ os p tr = Return (err, p', tr') -> same_definition p p'.
Proof. intros Hx. apply Stop_frame in Hx as [e' ->]. apply same_definition_set. Qed.

(** X9: the lifecycle calls act on the environment only. Whenever [Start],
    [Stop], [Kill], [Create], [Destroy], [Execute] or [Install] returns, the
    identifier, the data, the install spec and the runtime spec of the
    program are what they were before the call. *)
Theorem lifecycle_same_definition (os : OS)
        (GenerateInstallProcess :
           Programs.InstallSection -> Environments.Environment -> gomap ->
           list Operations.Operation)
        (p p' : Programs.programData) (tr tr' : list Event) :
  (forall err, Programs.Start os p tr = Return (err, p', tr') ->
               same_definition p p') /\
  (forall err, Programs.Stop_ os p tr = Return (err, p', tr') ->
               same_definition p p') /\
  (forall err, Programs.Kill os p tr = Return (err, p', tr') ->
               same_definition p p') /\
  (forall err, Programs.Create p tr = Return (err, p', tr') ->
               same_definition p p') /\
  (forall err, Programs.Destroy os p tr = Return (err, p', tr') ->
               same_definition p p') /\
  (forall command err,
      Programs.Execute os command p tr = Return (err, p', tr') ->
      same_definition p p') /\
  (forall r, Programs.Install os GenerateInstallProcess p tr
             = Return (r, p', tr') ->
             same_definition p p').
Proof.
  repeat split.
  - intros err. unfold Programs.Start. monad_run.
    rewrite env_DisplayToConsole.
    destruct (Programs.current_values _); [|discriminate]. monad_run.
    destruct (Programs.env _ _ _) as [[[e1 p1] tr1]|] eqn:Hx; [|discriminate].
    apply same_definition_env in Hx.
    destruct e1; rewrite ?env_DisplayToConsole; intros [= _ <- _];
      [eapply same_definition_trans; [exact Hx|apply same_definition_set]
      |exact Hx].
  - intros err. apply Stop_same_definition.
  - intros err. unfold Programs.Kill. monad_run.
    destruct (Programs.env _ _ _) as [[[e1 p1] tr1]|] eqn:Hx; [|discriminate].
    apply same_definition_env in Hx.
    destruct e1; rewrite env_DisplayToConsole; intros [= _ <- _];
      (eapply same_definition_trans; [exact Hx|apply same_definition_set]).
  - intros err. destruct (Program_Create_frame p tr) as (e' & tr1 & ->).
    intros [= _ <- _]. apply same_definition_set.
  - intros err. unfold Programs.Destroy. apply same_definition_env.
  - intros command err. unfold Programs.Execute. apply same_definition_env.
  - intros r. unfold Programs.Install. monad_run.
    assert (forall p1 tr1,
               same_definition p p1 ->
               match
                 Programs.env
                   (Environments.DisplayToConsole ("Installing server" +:+ LF))
                   p1 tr1
               with
               | Return (_, q, trq) =>
                   match
                     Programs.Install_loop os
                       (GenerateInstallProcess (Programs.InstallData q)
                          (Programs.Environment q) (Programs.Data q))
                       None q
                       (trq ++ [EvMkdirAll
                                  (Environments.GetRootDirectory
                                     (Programs.Environment q)) perm_0755])
                   with
                   | Return (a, q', trq') =>
                       match
                         Programs.env
                           (Environments.DisplayToConsole
                              ("Server installed" +:+ LF)) q' trq'
                       with
                       | Return (_, q'', trq'') => Return (a, q'', trq'')
                       | Panic r0 => Panic r0
                       end
                   | Panic r0 => Panic r0
                   end
               | Panic r0 => Panic r0
               end = Return (r, p', tr') ->
               same_definition p p') as Hrest.
    { intros p1 tr1 Hp1. rewrite !env_DisplayToConsole.
      destruct (Programs.Install_loop _ _ _ _ _)
        as [[[r2 p2] tr2]|] eqn:Hloop; [|discriminate].
      apply Install_loop_same_definition in Hloop.
      rewrite !env_DisplayToConsole. intros [= _ <- _].
      eapply same_definition_trans; [exact Hp1|].
      eapply same_definition_trans; [apply same_definition_set|].
      eapply same_definition_trans; [exact Hloop|apply same_definition_set]. }
    destruct (Programs.IsRunning os p).
    + destruct (Programs.Stop_ os p tr) as [[[e1 p1] tr1]|] eqn:Hx;
        [|discriminate].
      apply Stop_same_definition in Hx.
      destruct e1 as [e|].
      * rewrite !env_DisplayToConsole. intros [= _ <- _].
        eapply same_definition_trans; [exact Hx|apply same_definition_set].
      * by apply Hrest.
    + apply Hrest, same_definition_refl.
Qed.

Lemma lifecycle_same_definition_witness :
  exists r p' tr',
    Programs.Install Samples.os_ok generate_ABC program_stopped []
    = Return (r, p', tr') /\
    same_definition program_stopped p'.
Proof.
  eexists _, _, _. split; [vm_compute; reflexivity|].
  pose proof (lifecycle_same_definition Samples.os_ok generate_ABC
                program_stopped) as H.
  eapply (proj2 (proj2 (proj2 (proj2 (proj2 (proj2 (H _ [] _))))))).
  vm_compute. reflexivity.
Defined.

(** ** What Install tells the console *)

Lemma Install_loop_console (os : OS) (ops : list Operations.Operation) :
  forall (p p' : Programs.programData) (tr tr' : list Event) (e : error)
         (ran : list (Operations.Operation * option error)),
    Programs.Install_loop os ops None p tr = Return ((Some e, ran), p', tr') ->
    ran <> [] /\
    exists front,
      Environments.ConsoleBuffer (Programs.Environment p')
      = front ++ ["Error installing server" +:+ LF].
Proof.
  induction ops as [|op rest IH]; intros p p' tr tr' e ran.
  - cbn. discriminate.
  - cbn [Programs.Install_loop]. monad_run.
    cbv beta iota delta [Programs.RunNext]. monad_run.
    destruct (Programs.env _ p tr) as [[[e1 p1] tr1]|]; [|discriminate].
    destruct e1 as [e1|].
    + rewrite env_DisplayToConsole. intros [= <- <- <- _].
      split; [done|]. cbn. rewrite ConsoleBuffer_console_written. by eexists.
    + destruct (Programs.Install_loop os rest None p1 tr1)
        as [[[[err2 ran2] p2] tr2]|] eqn:Hrest; [|discriminate].
      intros [= -> <- <- _]. split; [done|].
      by apply IH in Hrest as [_ ?].
Qed.

(** X10: the last word of [Install] on the console. When [Install] returns
    nil the console ends with "Server installed". When it returns the error
    of a failed [Stop], no step ran and the console ends with "Error stopping
    server". When it returns the error of a failed step, the console ends
    with "Error installing server" followed all the same by "Server
    installed". *)
Theorem Install_console (os : OS)
        (GenerateInstallProcess :
           Programs.InstallSection -> Environments.Environment -> gomap ->
           list Operations.Operation)
        (p p' : Programs.programData) (tr tr' : list Event)
        (err : option error)
        (ran : list (Operations.Operation * option error)) :
  Programs.Install os GenerateInstallProcess p tr
  = Return ((err, ran), p', tr') ->
  match err with
  | None =>
      exists front,
        Environments.ConsoleBuffer (Programs.Environment p')
        = front ++ ["Server installed" +:+ LF]
  | Some e =>
      (ran = [] /\ Programs.IsRunning os p = true /\
       exists front,
         Environments.ConsoleBuffer (Programs.Environment p')
         = front ++ ["Error stopping server" +:+ LF]) \/
      (ran <> [] /\
       exists front,
         Environments.ConsoleBuffer (Programs.Environment p')
         = front ++ ["Error installing server" +:+ LF;
                     "Server installed" +:+ LF])
  end.
Proof.
  unfold Programs.Install. monad_run.
  assert (forall p1 tr1,
             match
               Programs.env
                 (Environments.DisplayToConsole ("Installing server" +:+ LF))
                 p1 tr1
             with
             | Return (_, q, trq) =>
                 match
                   Programs.Install_loop os
                     (GenerateInstallProcess (Programs.InstallData q)
                        (Programs.Environment q) (Programs.Data q))
                     None q
                     (trq ++ [EvMkdirAll
                                (Environments.GetRootDirectory
                                   (Programs.Environment q)) perm_0755])
                 with
                 | Return (a, q', trq') =>
                     match
                       Programs.env
                         (Environments.DisplayToConsole
                            ("Server installed" +:+ LF)) q' trq'
                     with
                     | Return (_, q'', trq'') => Return (a, q'', trq'')
                     | Panic r0 => Panic r0
                     end
                 | Panic r0 => Panic r0
                 end
             | Panic r0 => Panic r0
             end = Return ((err, ran), p', tr') ->
             match err with
             | None =>
                 exists front,
                   Environments.ConsoleBuffer (Programs.Environment p')
                   = front ++ ["Server installed" +:+ LF]
             | Some e =>
                 ran <> [] /\
                 exists front,
                   Environments.ConsoleBuffer (Programs.Environment p')
                   = front ++ ["Error installing server" +:+ LF;
                               "Server installed" +:+ LF]
             end) as Hrest.
  { intros p1 tr1. rewrite !env_DisplayToConsole.
    destruct (Programs.Install_loop _ _ _ _ _)
      as [[[[err2 ran2] p2] tr2]|] eqn:Hloop; [|discriminate].
    rewrite !env_DisplayToConsole. intros [= -> -> <- _].
    cbn [Programs.Environment Programs.set_Environment].
    rewrite ConsoleBuffer_console_written.
    destruct err as [e|]; [|by eexists].
    apply Install_loop_console in Hloop as (Hran & front & ->).
    split; [done|]. exists front. by rewrite <- app_assoc. }
  destruct (Programs.IsRunning os p) eqn:Hrun.
  - destruct (Programs.Stop_ os p tr) as [[[e1 p1] tr1]|]; [|discriminate].
    destruct e1 as [e|].
    + rewrite !env_DisplayToConsole. intros [= <- <- <- _].
      left. split; [done|]. split; [done|]. cbn.
      rewrite ConsoleBuffer_console_written. by eexists.
    + intros Hx. apply Hrest in Hx. destruct err; [by right|done].
  - intros Hx. apply Hrest in Hx. destruct err; [by right|done].
Qed.

Lemma Install_console_witness :
  exists p' tr',
    Programs.Install Samples.os_ok generate_ABC program_stopped []
    = Return ((Some (errors_New "B failed"),
               [(step_A, None); (step_B, Some (errors_New "B failed"))]),
              p', tr') /\
    Environments.ConsoleBuffer (Programs.Environment p')
    = ["Installing server" +:+ LF; "Error installing server" +:+ LF;
       "Server installed" +:+ LF] /\
    ((([(step_A, None); (step_B, Some (errors_New "B failed"))]
       : list (Operations.Operation * option error)) = [] /\
      Programs.IsRunning Samples.os_ok program_stopped = true /\
      exists front,
        Environments.ConsoleBuffer (Programs.Environment p')
        = front ++ ["Error stopping server" +:+ LF]) \/
     (([(step_A, None); (step_B, Some (errors_New "B failed"))]
       : list (Operations.Operation * option error)) <> [] /\
      exists front,
        Environments.ConsoleBuffer (Programs.Environment p')
        = front ++ ["Error installing server" +:+ LF;
                    "Server installed" +:+ LF])).
Proof.
  eexists _, _. split; [vm_compute; reflexivity|].
  split; [vm_compute; reflexivity|].
  eapply (Install_console Samples.os_ok generate_ABC program_stopped _ [] _
           (Some (errors_New "B failed"))
           [(step_A, None); (step_B, Some (errors_New "B failed"))]).
  vm_compute. reflexivity.
Defined.

(** ** Start *)

Lemma descriptor_value_is_Some (v : value) :
  is_Some (Programs.descriptor_value v) <-> is_descriptor v.
Proof.
  unfold is_descriptor. destruct v; cbn; split;
    try (intros [? [=]]); try (intros [? [=]]); eauto.
Qed.

(** The loop of [Start] over the data succeeds exactly when every entry is a
    descriptor, and then maps every key to what its descriptor holds under
    "value". *)
Lemma current_values_fold (m : gmap string value) :
  match Programs.current_values (Some m) with
  | Some vals =>
      map_Forall (fun _ v => is_descriptor v) m /\
      vals = omap Programs.descriptor_value m
  | None => ~ map_Forall (fun _ v => is_descriptor v) m
  end.
Proof.
  unfold Programs.current_values.
  apply (map_fold_weak_ind
           (fun r m' =>
              match r with
              | Some vals =>
                  map_Forall (fun _ v => is_descriptor v) m' /\
                  vals = omap Programs.descriptor_value m'
              | None => ~ map_Forall (fun _ v => is_descriptor v) m'
              end)).
  - split; [apply map_Forall_empty|by rewrite omap_empty].
  - intros k v m' r Hk IH. destruct r as [vals|]; cbn.
    + destruct IH as [Hall ->].
      destruct (Programs.descriptor_value v) as [x|] eqn:Hv; cbn.
      * split.
        -- apply map_Forall_insert; [done|]. split; [|done].
           apply descriptor_value_is_Some. by rewrite Hv.
        -- by rewrite (omap_insert_Some _ _ _ _ x).
      * intros Hall'. apply map_Forall_insert in Hall' as [Hd _]; [|done].
        apply descriptor_value_is_Some in Hd. rewrite Hv in Hd.
        by destruct Hd.
    + intros Hall'. apply map_Forall_insert in Hall' as [_ Hall']; done.
Qed.

Lemma current_values_Some_iff (d : gomap) :
  is_Some (Programs.current_values d) <-> all_descriptors d.
Proof.
  destruct d as [m|].
  - pose proof (current_values_fold m) as H.
    destruct (Programs.current_values (Some m)) as [vals|].
    + destruct H as [Hall _]. split; [|by eauto].
      intros _ m' [= <-] k v Hk. by apply (Hall k v).
    + split; [by intros [? [=]]|].
      intros Hall. exfalso. apply H. intros k v Hk. by apply (Hall m eq_refl k v).
  - cbn. split; [|by eauto]. intros _ m [=].
Qed.


(** [ExecuteAsync] always returns. *)
Lemma ExecuteAsync_returns (os : OS) (cmd : string) (args : list string)
      (e : Environments.Environment) (tr : list Event) :
  exists r, Environments.ExecuteAsync os cmd args e tr = Return r.
Proof.
  destruct (Environments.IsRunning os e) eqn:Hrun.
  - destruct (IsRunning_tracked os e Hrun) as (c & [pid] & Hc & Hp).
    rewrite (ExecuteAsync_running os e cmd args tr c pid Hrun Hc Hp).
    by eexists.
  - unfold Environments.ExecuteAsync, Environments.dispatch.
    destruct e as [s|t]; cbn in Hrun.
    + rewrite (Standard_ExecuteAsync_spawn os cmd args s tr Hrun). by eexists.
    + rewrite (Tty_ExecuteAsync_spawn os cmd args t tr Hrun). by eexists.
Qed.

(** X11: [Start] returns exactly when every entry of Data is a descriptor
    map; one entry of another kind (a bare string, a number, nil) makes the
    type assertion of its loop panic, on every machine and whether or not a
    process is running. *)
Theorem Start_returns_iff (os : OS) (p : Programs.programData)
        (tr : list Event) :
  (exists r, Programs.Start os p tr = Return r) <->
  all_descriptors (Programs.Data p).
Proof.
  rewrite <- current_values_Some_iff.
  unfold Programs.Start. monad_run. rewrite env_DisplayToConsole.
  destruct (Programs.current_values (Programs.Data p)) as [vals|].
  - split; [by eauto|]. intros _. monad_run. rewrite env_run.
    destruct (ExecuteAsync_returns os (Programs.Program (Programs.RunData p))
                (ReplaceTokensInArr os (Programs.Arguments (Programs.RunData p))
                   vals)
                (Programs.Environment
                   (Programs.set_Environment
                      (Environments.console_written "Starting server"
                         (Programs.Environment p)) p))
                (tr ++ [EvLogDebug ("Starting server " +:+ Programs.Id p)]))
      as [[[err e1] tr1] ->].
    destruct err; rewrite ?env_DisplayToConsole; by eexists.
  - split; [by intros [? [=]]|by intros [? [=]]].
Qed.

(** The bare string that an [Edit] stores makes the next [Start] panic. *)
Example Start_after_Edit_panics :
  exists p' tr',
    Programs.Edit Samples.os_ok {[ "port" := VString "25566" ]}
      program_stopped [] = Return (None, p', tr') /\
    Programs.Start Samples.os_ok p' tr'
    = Panic "interface conversion: interface {} is not map[string]interface {}".
Proof. eexists _, _. split; vm_compute; reflexivity. Qed.



Lemma Start_returns_iff_witness :
  (exists r, Programs.Start Samples.os_ok program_stopped [] = Return r) /\
  ~ all_descriptors (Programs.Data program_edited).
Proof.
  split.
  - apply (proj2 (Start_returns_iff Samples.os_ok program_stopped [])).
    intros m [= <-] k v Hk. unfold Samples.data_net in Hk.
    apply lookup_insert_Some in Hk as [[_ <-]|[_ Hk]]; [by eexists|].
    apply lookup_singleton_Some in Hk as [_ <-]. by eexists.
  - intros Hall.
    apply (proj2 (Start_returns_iff Samples.os_ok program_edited [])) in Hall
      as [r Hr].
    vm_compute in Hr. discriminate.
Defined.

(** ** Edit *)

Lemma Edit_run (os : OS) (data m : gmap string value)
      (p : Programs.programData) (tr : list Event) :
  Programs.Data p = Some m ->
  Programs.Edit os data p tr
  = Return (programsSave os (Programs.Identifier p),
            Programs.set_Data (Some (data ∪ m)) p,
            tr ++ [EvSave (Programs.Identifier p)]).
Proof.
  intros Hm. unfold Programs.Edit. monad_run.
  by rewrite Hm, Edit_loop_union.
Qed.

(** X13: [Edit] on a program with data lays the supplied map over Data: every
    supplied key ends bound to the supplied value, every other key keeps its
    entry. It asks once for the program to be saved and returns what the save
    returned; the change to Data is kept when the save fails. *)
Theorem Edit_merge (os : OS) (data m : gmap string value)
        (p : Programs.programData) (tr : list Event) :
  Programs.Data p = Some m ->
  exists d',
    Programs.Edit os data p tr
    = Return (programsSave os (Programs.Identifier p),
              Programs.set_Data (Some d') p,
              tr ++ [EvSave (Programs.Identifier p)]) /\
    (forall k v, data !! k = Some v -> d' !! k = Some v) /\
    (forall k, data !! k = None -> d' !! k = m !! k).
Proof.
  intros Hm. exists (data ∪ m).
  unfold Programs.Edit. monad_run. rewrite Hm, Edit_loop_union.
  split; [reflexivity|]. split.
  - intros k v Hk. by apply lookup_union_Some_l.
  - intros k Hk. by apply lookup_union_r.
Qed.

Lemma Edit_merge_witness :
  exists d',
    Programs.Edit Samples.os_ok {[ "port" := VString "25566" ]}
      program_stopped []
    = Return (programsSave Samples.os_ok (Programs.Identifier program_stopped),
              Programs.set_Data (Some d') program_stopped,
              [] ++ [EvSave (Programs.Identifier program_stopped)]) /\
    (forall k v, ({[ "port" := VString "25566" ]} : gmap string value) !! k
                 = Some v -> d' !! k = Some v) /\
    (forall k, ({[ "port" := VString "25566" ]} : gmap string value) !! k = None ->
               d' !! k = Samples.data_net !! k).
Proof.
  apply (Edit_merge Samples.os_ok {[ "port" := VString "25566" ]}
           Samples.data_net program_stopped []).
  reflexivity.
Defined.

Lemma Edit_loop_nil (data : gmap string value) :
  (data = ∅ -> Programs.Edit_loop data None = Some None) /\
  (data <> ∅ -> Programs.Edit_loop data None = None).
Proof.
  unfold Programs.Edit_loop.
  apply (map_fold_weak_ind
           (fun r data' => (data' = ∅ -> r = Some None) /\
                           (data' <> ∅ -> r = None))).
  - split; [done|]. by intros [].
  - intros k v data' r _ [Hempty Hnot]. split.
    + intros Hins. by apply insert_non_empty in Hins.
    + intros _. destruct (decide (data' = ∅)) as [He|Hne].
      * rewrite (Hempty He). cbn. unfold Programs.Edit_step.
        by destruct (is_nil v || is_empty_string v).
      * rewrite (Hnot Hne). reflexivity.
Qed.

(** X14: [Edit] on a program whose Data is the nil map. With no override it
    saves and returns, Data staying nil; with one override or more it panics
    on the assignment to the nil map, before anything is saved. *)
Theorem Edit_nil_data (os : OS) (data : gmap string value)
        (p : Programs.programData) (tr : list Event) :
  Programs.Data p = None ->
  (data = ∅ ->
   Programs.Edit os data p tr
   = Return (programsSave os (Programs.Identifier p), p,
             tr ++ [EvSave (Programs.Identifier p)])) /\
  (data <> ∅ ->
   Programs.Edit os data p tr = Panic "assignment to entry in nil map").
Proof.
  intros Hd. unfold Programs.Edit. monad_run. rewrite Hd.
  destruct (Edit_loop_nil data) as [Hempty Hnot]. split.
  - intros He. rewrite (Hempty He).
    unfold Programs.set_Data. rewrite <- Hd. by destruct p.
  - intros Hne. by rewrite (Hnot Hne).
Qed.

Lemma Edit_nil_data_witness :
  Programs.Edit Samples.os_ok ∅
    (Samples.program (Environments.Direct Samples.std_fresh) None) []
  = Return (programsSave Samples.os_ok "s1",
            Samples.program (Environments.Direct Samples.std_fresh) None,
            [] ++ [EvSave "s1"]) /\
  Programs.Edit Samples.os_ok {[ "port" := VString "25566" ]}
    (Samples.program (Environments.Direct Samples.std_fresh) None) []
  = Panic "assignment to entry in nil map".
Proof.
  split.
  - apply (proj1 (Edit_nil_data Samples.os_ok ∅
                    (Samples.program (Environments.Direct Samples.std_fresh)
                                     None) [] eq_refl)).
    reflexivity.
  - apply (proj2 (Edit_nil_data Samples.os_ok {[ "port" := VString "25566" ]}
                    (Samples.program (Environments.Direct Samples.std_fresh)
                                     None) [] eq_refl)).
    apply insert_non_empty.
Defined.

(** X15: two [Edit]s in a row leave the Data that one [Edit] with the second
    map laid over the first would leave; in particular repeating an [Edit]
    changes nothing more. Each of them saves once. *)
Theorem Edit_twice (os os' : OS) (data1 data2 m : gmap string value)
        (p : Programs.programData) (tr : list Event) :
  Programs.Data p = Some m ->
  exists p1 p2,
    Programs.Edit os data1 p tr
    = Return (programsSave os (Programs.Identifier p), p1,
              tr ++ [EvSave (Programs.Identifier p)]) /\
    Programs.Edit os' data2 p1 (tr ++ [EvSave (Programs.Identifier p)])
    = Return (programsSave os' (Programs.Identifier p), p2,
              tr ++ [EvSave (Programs.Identifier p);
                     EvSave (Programs.Identifier p)]) /\
    Programs.Edit os' (data2 ∪ data1) p tr
    = Return (programsSave os' (Programs.Identifier p), p2,
              tr ++ [EvSave (Programs.Identifier p)]) /\
    (data2 = data1 -> p2 = p1).
Proof.
  intros Hm.
  exists (Programs.set_Data (Some (data1 ∪ m)) p),
         (Programs.set_Data (Some (data2 ∪ (data1 ∪ m))) p).
  split; [by apply Edit_run|]. split.
  - rewrite (Edit_run os' data2 (data1 ∪ m)
               (Programs.set_Data (Some (data1 ∪ m)) p) _ eq_refl).
    by rewrite <- app_assoc.
  - split.
    + rewrite (Edit_run os' (data2 ∪ data1) m p tr Hm).
      by rewrite (assoc_L (∪)).
    + intros ->. by rewrite (assoc_L (∪)), (idemp_L (∪)).
Qed.

Lemma Edit_twice_witness :
  exists p1 p2,
    Programs.Edit Samples.os_ok {[ "port" := VString "25566" ]}
      program_stopped []
    = Return (programsSave Samples.os_ok (Programs.Identifier program_stopped),
              p1, [] ++ [EvSave (Programs.Identifier program_stopped)]) /\
    Programs.Edit Samples.os_down {[ "ip" := VString "" ]} p1
      ([] ++ [EvSave (Programs.Identifier program_stopped)])
    = Return (programsSave Samples.os_down
                (Programs.Identifier program_stopped), p2,
              [] ++ [EvSave (Programs.Identifier program_stopped);
                     EvSave (Programs.Identifier program_stopped)]) /\
    Programs.Edit Samples.os_down
      ({[ "ip" := VString "" ]} ∪ {[ "port" := VString "25566" ]})
      program_stopped []
    = Return (programsSave Samples.os_down
                (Programs.Identifier program_stopped), p2,
              [] ++ [EvSave (Programs.Identifier program_stopped)]) /\
    (({[ "ip" := VString "" ]} : gmap string value)
     = {[ "port" := VString "25566" ]} -> p2 = p1).
Proof.
  apply (Edit_twice Samples.os_ok Samples.os_down
           {[ "port" := VString "25566" ]} {[ "ip" := VString "" ]}
           Samples.data_net program_stopped []).
  reflexivity.
Defined.

(** ** Every schedule of WaitForMainProcessFor *)

Lemma wait_set_mainProcess (c : option Cmd) (e : Environments.Environment) :
  Environments.wait (Environments.set_mainProcess c e) = Environments.wait e.
Proof. by destruct e. Qed.

Lemma mainProcess_set_wait (n : Z) (e : Environments.Environment) :
  Environments.mainProcess (Environments.set_wait n e)
  = Environments.mainProcess e.
Proof. by destruct e. Qed.

Lemma wait_set_wait (n : Z) (e : Environments.Environment) :
  Environments.wait (Environments.set_wait n e) = n.
Proof. by destruct e. Qed.

Lemma IsRunning_os_of (base : OS) (pr : Concurrent.proc)
      (e : Environments.Environment) (c : Cmd) (pid : Z) :
  Environments.mainProcess e = Some c -> Process c = Some {| Pid := pid |} ->
  Environments.IsRunning (Concurrent.os_of base pr) e
  = match pr with Concurrent.Reaped => false | _ => true end.
Proof.
  intros Hc Hp. destruct e as [s|t]; cbn in *;
    [unfold Standard.IsRunning | unfold Tty.IsRunning];
    rewrite Hc, Hp; by destruct pr.
Qed.


Ltac inv_finish :=
  cbn in *;
  rewrite ?wait_set_mainProcess, ?mainProcess_set_wait, ?wait_set_wait in *;
  try done;
  try (intuition (repeat match goal with H : ex _ |- _ => destruct H end;
                  (congruence || lia || eauto ||
                   (subst; cbn; (congruence || eauto))))).

Section EverySchedule.
Context (base : OS) (timeout : Z) (e0 : Environments.Environment)
        (c0 : Cmd) (pid : Z).
Context (Hc0 : Environments.mainProcess e0 = Some c0)
        (Hp0 : Process c0 = Some {| Pid := pid |})
        (Hw0 : Environments.wait e0 = 1%Z).

Lemma wait_invariant_step (l : Concurrent.label) (st st' : Concurrent.state) :
  wait_invariant timeout e0 pid st ->
  Concurrent.step base timeout l st = Some st' ->
  wait_invariant timeout e0 pid st'.
Proof.
  intros [I1 I2 I3 I4 I5 I6 I7 I8 I9 I10] Hstep.
  destruct st as [e pr er tm w t r cs]; cbn in *.
  destruct l; cbn in Hstep.
  - unfold Concurrent.waiter_step in Hstep; cbn in Hstep.
    destruct w; cbn in Hstep; try discriminate.
    + injection Hstep as <-.
      assert (tm = Concurrent.NotSet) as -> by auto.
      assert (t = Concurrent.T_idle) as -> by (apply I6; done).
      unfold Concurrent.IsRunning; cbn.
      rewrite (IsRunning_os_of base pr e c0 pid) by congruence.
      split; destruct pr; inv_finish.
    + injection Hstep as <-. split; destruct (0 <? timeout)%Z; inv_finish.
    + injection Hstep as <-. split; inv_finish.
    + destruct (bool_decide _) eqn:Hw; [|discriminate].
      apply bool_decide_eq_true in Hw.
      injection Hstep as <-. split; destruct r; inv_finish.
    + injection Hstep as <-. split; destruct tm; inv_finish.
    + destruct (bool_decide _) eqn:Hw; [|discriminate].
      apply bool_decide_eq_true in Hw.
      injection Hstep as <-. split; destruct r; inv_finish.
    + injection Hstep as <-. split; destruct tm; inv_finish.
  - unfold Concurrent.expire_step in Hstep; cbn in Hstep.
    destruct tm; try discriminate. injection Hstep as <-.
    assert (t = Concurrent.T_idle) as -> by (apply I6; done).
    split; inv_finish.
  - unfold Concurrent.timer_step in Hstep; cbn in Hstep.
    destruct t; cbn in Hstep; try discriminate.
    + injection Hstep as <-. unfold Concurrent.IsRunning; cbn.
      rewrite (IsRunning_os_of base pr e c0 pid) by congruence.
      split; destruct pr; inv_finish.
    + rewrite I7, Hc0 in Hstep. cbn in Hstep. rewrite Hp0 in Hstep.
      injection Hstep as <-. split; destruct pr; inv_finish.
    + rewrite I7, Hc0 in Hstep. cbn in Hstep. rewrite Hp0 in Hstep.
      injection Hstep as <-. split; inv_finish.
    + injection Hstep as <-. split; inv_finish.
    + injection Hstep as <-. split; inv_finish.
  - unfold Concurrent.reaper_step in Hstep; cbn in Hstep.
    destruct r; cbn in Hstep; try discriminate.
    + destruct pr; try discriminate. injection Hstep as <-.
      split; inv_finish.
    + injection Hstep as <-. split; destruct t; inv_finish.
  - unfold Concurrent.exit_step in Hstep; cbn in Hstep.
    destruct pr; try discriminate. injection Hstep as <-. split; inv_finish.
Qed.

Lemma wait_invariant_called_on :
  wait_invariant timeout e0 pid (Concurrent.called_on e0).
Proof. split; inv_finish. Qed.

Lemma wait_invariant_run (schedule : list Concurrent.label) :
  forall st st',
    wait_invariant timeout e0 pid st ->
    Concurrent.run base timeout schedule st = Some st' ->
    wait_invariant timeout e0 pid st'.
Proof.
  induction schedule as [|l rest IH]; intros st st' Hinv.
  - cbn. by intros [= <-].
  - cbn. destruct (Concurrent.step base timeout l st) as [st1|] eqn:Hstep;
      [|discriminate].
    apply IH. by eapply wait_invariant_step.
Qed.

Lemma wait_invariant_reachable (schedule : list Concurrent.label)
      (st : Concurrent.state) :
  Concurrent.run base timeout schedule (Concurrent.called_on e0) = Some st ->
  wait_invariant timeout e0 pid st.
Proof. apply wait_invariant_run, wait_invariant_called_on. Qed.

End EverySchedule.



(** X17: whatever the schedule, a [WaitForMainProcessFor] call signals
    nothing unless its timer has expired: as long as the timer has not
    expired (it was never set, is still armed, or was stopped), no call has
    reached the process, the process handle is the one the call started
    with, and the result variable is nil. Once it has expired the tracked
    pid is signalled at most once and released at most once, in that order.
    A result other than nil is returned only after the timer expired. *)
Theorem Wait_kills_only_after_expiry (base : OS) (timeout : Z)
        (e0 : Environments.Environment) (c0 : Cmd) (pid : Z)
        (schedule : list Concurrent.label) (st : Concurrent.state) :
  Environments.mainProcess e0 = Some c0 ->
  Process c0 = Some {| Pid := pid |} ->
  Environments.wait e0 = 1%Z ->
  Concurrent.run base timeout schedule (Concurrent.called_on e0) = Some st ->
  (Concurrent.tmr st <> Concurrent.Fired ->
   Concurrent.calls st = [] /\
   Concurrent.err st = None /\
   Environments.mainProcess (Concurrent.env st)
   = Environments.mainProcess e0) /\
  (Concurrent.calls st = [] \/ Concurrent.calls st = [EvKill pid] \/
   Concurrent.calls st = [EvKill pid; EvRelease pid]) /\
  (forall r, Concurrent.wpc st = Concurrent.W_done r ->
             r <> None -> Concurrent.tmr st = Concurrent.Fired).
Proof.
  intros Hc0 Hp0 Hw0 Hrun.
  pose proof (wait_invariant_reachable base timeout e0 c0 pid Hc0 Hp0 Hw0
                schedule st Hrun) as [I1 I2 I3 I4 I5 I6 I7 I8 I9 I10].
  split; [|split].
  - intros Htm. apply I6 in Htm. rewrite Htm in I7, I8.
    split; [done|]. split; [|done]. apply I9. by rewrite Htm.
  - destruct (Concurrent.tpc st); intuition.
  - intros r Hdone Hr. by destruct (I10 r Hdone).
Qed.

Lemma Wait_kills_only_after_expiry_witness :
  exists st,
    Concurrent.run Samples.os_ok 100 Concurrent.schedule_completion
      (Concurrent.called_on (Environments.Direct Samples.std_started))
    = Some st /\
    Concurrent.tmr st = Concurrent.Stopped /\
    (Concurrent.tmr st <> Concurrent.Fired ->
     Concurrent.calls st = [] /\
     Concurrent.err st = None /\
     Environments.mainProcess (Concurrent.env st)
     = Environments.mainProcess (Environments.Direct Samples.std_started)) /\
    (Concurrent.calls st = [] \/ Concurrent.calls st = [EvKill 4242] \/
     Concurrent.calls st = [EvKill 4242; EvRelease 4242]) /\
    (forall r, Concurrent.wpc st = Concurrent.W_done r ->
               r <> None -> Concurrent.tmr st = Concurrent.Fired).
Proof.
  eexists. split; [vm_compute; reflexivity|]. split; [reflexivity|].
  eapply (Wait_kills_only_after_expiry Samples.os_ok 100
            (Environments.Direct Samples.std_started) Samples.cmd_started 4242
            Concurrent.schedule_completion).
  - reflexivity.
  - reflexivity.
  - reflexivity.
  - vm_compute. reflexivity.
Defined.

(** X18: [WaitForMainProcess], that is [WaitForMainProcessFor] with a timeout
    that is not positive, never sets a timer: on every schedule no call
    reaches the process, the process handle stays, and the call can only
    return nil. *)
Theorem WaitForMainProcess_never_kills (base : OS) (timeout : Z)
        (e0 : Environments.Environment) (c0 : Cmd) (pid : Z)
        (schedule : list Concurrent.label) (st : Concurrent.state) :
  (timeout <= 0)%Z ->
  Environments.mainProcess e0 = Some c0 ->
  Process c0 = Some {| Pid := pid |} ->
  Environments.wait e0 = 1%Z ->
  Concurrent.run base timeout schedule (Concurrent.called_on e0) = Some st ->
  Concurrent.tmr st = Concurrent.NotSet /\
  Concurrent.calls st = [] /\
  Environments.mainProcess (Concurrent.env st) = Environments.mainProcess e0 /\
  forall r, Concurrent.wpc st = Concurrent.W_done r -> r = None.
Proof.
  intros Ht Hc0 Hp0 Hw0 Hrun.
  pose proof (wait_invariant_reachable base timeout e0 c0 pid Hc0 Hp0 Hw0
                schedule st Hrun) as [I1 I2 I3 I4 I5 I6 I7 I8 I9 I10].
  assert ((0 <? timeout)%Z = false) as Hlt by lia.
  destruct (I4 Hlt) as (Htm & _).
  assert (Concurrent.tpc st = Concurrent.T_idle) as Hidle
    by (apply I6; congruence).
  rewrite Hidle in I7, I8.
  split; [done|]. split; [done|]. split; [done|].
  intros r Hdone. destruct (I10 r Hdone); congruence.
Qed.

Lemma WaitForMainProcess_never_kills_witness :
  exists st,
    Concurrent.run Samples.os_ok 0 schedule_no_timeout
      (Concurrent.called_on (Environments.Direct Samples.std_started))
    = Some st /\
    Concurrent.wpc st = Concurrent.W_done None /\
    Concurrent.tmr st = Concurrent.NotSet /\
    Concurrent.calls st = [] /\
    Environments.mainProcess (Concurrent.env st)
    = Environments.mainProcess (Environments.Direct Samples.std_started) /\
    forall r, Concurrent.wpc st = Concurrent.W_done r -> r = None.
Proof.
  eexists. split; [vm_compute; reflexivity|]. split; [reflexivity|].
  eapply (WaitForMainProcess_never_kills Samples.os_ok 0
            (Environments.Direct Samples.std_started) Samples.cmd_started 4242
            schedule_no_timeout).
  - reflexivity.
  - reflexivity.
  - reflexivity.
  - reflexivity.
  - vm_compute. reflexivity.
Defined.

(** ** Direct and PTY *)

(** X19: apart from the way they spawn, the two environments are the same
    program: on equal fields [IsRunning], [Kill], [ExecuteInMainProcess],
    [Create], [Delete], [DisplayToConsole] and [AddListener] of the PTY
    environment return, change and ask of the machine exactly what those of
    the Direct environment do, and [ExecuteAsync] agrees with it whenever a
    process is running. *)
Theorem tty_agrees_with_standard (os : OS) (s : Standard.standard)
        (tr : list Event) :
  Tty.IsRunning os (tty_of s) = Standard.IsRunning os s /\
  Tty.Kill os (tty_of s) tr = as_tty (Standard.Kill os s tr) /\
  (forall input,
      Tty.ExecuteInMainProcess os input (tty_of s) tr
      = as_tty (Standard.ExecuteInMainProcess os input s tr)) /\
  Tty.Create (tty_of s) tr = as_tty (Standard.Create s tr) /\
  Tty.Delete os (tty_of s) tr = as_tty (Standard.Delete os s tr) /\
  (forall msg,
      Tty.DisplayToConsole msg (tty_of s) tr
      = as_tty (Standard.DisplayToConsole msg s tr)) /\
  (forall ws,
      Tty.AddListener ws (tty_of s) tr
      = as_tty (Standard.AddListener ws s tr)) /\
  (forall cmd args,
      Standard.IsRunning os s = true ->
      Tty.ExecuteAsync os cmd args (tty_of s) tr
      = as_tty (Standard.ExecuteAsync os cmd args s tr)).
Proof.
  assert (Tty.IsRunning os (tty_of s) = Standard.IsRunning os s) as Hrun
    by reflexivity.
  split; [done|]. split.
  { unfold Tty.Kill, Standard.Kill. monad_run. rewrite Hrun.
    destruct (Standard.IsRunning os s); [|reflexivity]. cbn.
    destruct (Standard.mainProcess s) as [c|]; [|reflexivity]. cbn.
    destruct (Process c); reflexivity. }
  split.
  { intros input. unfold Tty.ExecuteInMainProcess, Standard.ExecuteInMainProcess.
    monad_run. rewrite Hrun.
    destruct (Standard.IsRunning os s); [|reflexivity]. cbn.
    destruct (Standard.stdInWriter s); reflexivity. }
  split; [reflexivity|]. split; [reflexivity|].
  split; [reflexivity|]. split; [reflexivity|].
  intros cmd args Hs. unfold Tty.ExecuteAsync, Standard.ExecuteAsync.
  monad_run. rewrite Hrun, Hs. cbn.
  destruct (Standard.mainProcess s) as [c|]; [|reflexivity]. cbn.
  destruct (Process c); reflexivity.
Qed.

Lemma tty_agrees_with_standard_witness :
  Tty.ExecuteAsync Samples.os_ok "sh" [] (tty_of Samples.std_started) []
  = as_tty (Standard.ExecuteAsync Samples.os_ok "sh" [] Samples.std_started []).
Proof.
  apply (tty_agrees_with_standard Samples.os_ok Samples.std_started []).
  reflexivity.
Defined.

(** ** The bearer-token handler *)

Lemma cut_space_append (s a b : string) :
  HttpHandlers.cut_space s = Some (a, b) -> s = a +:+ " " +:+ b.
Proof.
  revert a b. induction s as [|c s IH]; intros a b; cbn; [discriminate|].
  destruct (Ascii.eqb_spec c " "%char) as [->|Hc].
  - by intros [= <- <-].
  - destruct (HttpHandlers.cut_space s) as [[a' b']|]; [|discriminate].
    intros [= <- <-]. rewrite (IH a' b' eq_refl) at 1. reflexivity.
Qed.

Lemma SplitN2_Bearer (tok : string) :
  HttpHandlers.SplitN2 ("Bearer " +:+ tok) = ["Bearer"; tok].
Proof. reflexivity. Qed.

(** X20: where the handler takes the token from. With no Authorization
    header and no accessToken parameter it aborts with 401; with the header
    absent it validates the parameter. A header that is "Bearer ", followed by
    anything (the empty string included, and whatever the parameter is), has
    what follows validated; any other header aborts with 400. The two aborts
    happen before any request is sent. *)
Theorem OAuth2Handler_token (net : HttpHandlers.Net)
        (c : HttpHandlers.Context) (tr : list HttpHandlers.HEvent) :
  (HttpHandlers.Authorization c = "" -> HttpHandlers.accessToken c = "" ->
   HttpHandlers.OAuth2Handler net c tr
   = Return (HttpHandlers.AbortWithStatus 401 c, tr)) /\
  (HttpHandlers.Authorization c = "" -> HttpHandlers.accessToken c <> "" ->
   HttpHandlers.OAuth2Handler net c tr
   = HttpHandlers.validateToken net (HttpHandlers.accessToken c) c tr) /\
  (forall tok,
      HttpHandlers.Authorization c = "Bearer " +:+ tok ->
      HttpHandlers.OAuth2Handler net c tr
      = HttpHandlers.validateToken net tok c tr) /\
  (HttpHandlers.Authorization c <> "" ->
   (forall tok, HttpHandlers.Authorization c <> "Bearer " +:+ tok) ->
   HttpHandlers.OAuth2Handler net c tr
   = Return (HttpHandlers.AbortWithStatus 400 c, tr)).
Proof.
  unfold HttpHandlers.OAuth2Handler. cbv zeta.
  split; [|split; [|split]].
  - intros -> ->. reflexivity.
  - intros -> Hq. cbn.
    by destruct (String.eqb_spec (HttpHandlers.accessToken c) "").
  - intros tok ->. reflexivity.
  - intros Hne Hnot.
    destruct (String.eqb_spec (HttpHandlers.Authorization c) ""); [done|].
    unfold HttpHandlers.SplitN2.
    destruct (HttpHandlers.cut_space (HttpHandlers.Authorization c))
      as [[a0 a1]|] eqn:Hcut; [|reflexivity].
    destruct (String.eqb_spec a0 "Bearer") as [->|]; [|reflexivity].
    apply cut_space_append in Hcut. by destruct (Hnot a1).
Qed.

Lemma OAuth2Handler_token_witness :
  HttpHandlers.OAuth2Handler HttpHandlers.net_granting
    HttpHandlers.bearer_request []
  = HttpHandlers.validateToken HttpHandlers.net_granting "abc def"
      HttpHandlers.bearer_request [].
Proof.
  apply (proj1 (proj2 (proj2 (OAuth2Handler_token HttpHandlers.net_granting
                                HttpHandlers.bearer_request [])))).
  reflexivity.
Defined.



(** X22: when [validateToken] panics. It panics exactly when [http.NewRequest]
    refuses the configured URL, or the answer has status 200 and no "error"
    entry but its "active" entry is not a boolean, or is true while
    "server_id" or "scope" is not a string. An answer with status 200 whose
    body is not a JSON object is such a case. *)
Theorem validateToken_panics (net : HttpHandlers.Net) (tok : string)
        (c : HttpHandlers.Context) (tr : list HttpHandlers.HEvent) :
  (exists r, HttpHandlers.validateToken net tok c tr = Panic r) <->
  HttpHandlers.NewRequestOk net (HttpHandlers.configGet net "infoserver")
  = false \/
  exists response,
    HttpHandlers.Do net (HttpHandlers.introspection net tok) = inl response /\
    HttpHandlers.StatusCode response = 200%Z /\
    index (HttpHandlers.Decoded response) "error" = VNil /\
    match index (HttpHandlers.Decoded response) "active" with
    | VBool false => False
    | VBool true =>
        match index (HttpHandlers.Decoded response) "server_id",
              index (HttpHandlers.Decoded response) "scope" with
        | VString _, VString _ => False
        | _, _ => True
        end
    | _ => True
    end.
Proof.
  unfold HttpHandlers.validateToken.
  destruct (HttpHandlers.NewRequestOk net _); cbn [negb];
    [|split; [by left|by eexists]].
  cbv zeta.
  destruct (HttpHandlers.Do net _) as [response|err] eqn:HDo.
  2: { split; [by intros [? [=]]|]. intros [[=]|(? & [=] & _)]. }
  destruct (Z.eqb_spec (HttpHandlers.StatusCode response) 200) as [Hs|Hs];
    cbn [negb].
  2: { split; [by intros [? [=]]|].
       intros [[=]|(? & [= <-] & ? & _)]. done. }
  destruct (index (HttpHandlers.Decoded response) "error") eqn:Herr;
    cbn [is_nil negb].
  2-5: split; [by intros [? [=]]|];
       intros [[=]|(? & [= <-] & _ & Herr' & _)]; congruence.
  split.
  - intros Hp. right. exists response. do 3 (split; [done|]).
    destruct (index (HttpHandlers.Decoded response) "active")
      as [| | |[]|]; try done.
    + destruct (index (HttpHandlers.Decoded response) "server_id"); try done.
      destruct (index (HttpHandlers.Decoded response) "scope"); try done.
      by destruct Hp as [? [=]].
    + by destruct Hp as [? [=]].
  - intros [[=]|(response' & [= <-] & _ & _ & Hact)].
    destruct (index (HttpHandlers.Decoded response) "active")
      as [| | |[]|]; try done; try by eexists.
    destruct (index (HttpHandlers.Decoded response) "server_id");
      try by eexists.
    destruct (index (HttpHandlers.Decoded response) "scope");
      try done; by eexists.
Qed.

Lemma validateToken_panics_witness :
  exists r,
    HttpHandlers.validateToken net_garbled "abc" HttpHandlers.bearer_request []
    = Panic r.
Proof.
  apply (proj2 (validateToken_panics net_garbled "abc"
                  HttpHandlers.bearer_request [])).
  right. eexists. split; [reflexivity|]. split; [reflexivity|].
  split; reflexivity.
Defined.

(** ** Splitting the scopes *)

Lemma Split_nonempty (s : string) : HttpHandlers.Split s <> [].
Proof.
  destruct s as [|c s]; cbn; [done|].
  destruct (Ascii.eqb c " "%char); [done|].
  by destruct (HttpHandlers.Split s).
Qed.

Lemma Join_cons (piece : string) (pieces : list string) :
  pieces <> [] ->
  HttpHandlers.Join (piece :: pieces)
  = piece +:+ " " +:+ HttpHandlers.Join pieces.
Proof. by destruct pieces. Qed.

Lemma Join_Split (s : string) : HttpHandlers.Join (HttpHandlers.Split s) = s.
Proof.
  induction s as [|c s IH]; [reflexivity|].
  cbn [HttpHandlers.Split].
  destruct (Ascii.eqb_spec c " "%char) as [->|Hc].
  - rewrite Join_cons by apply Split_nonempty. by rewrite IH.
  - pose proof (Split_nonempty s) as Hne.
    destruct (HttpHandlers.Split s) as [|piece pieces]; [done|].
    destruct pieces as [|piece' pieces].
    + cbn in *. by rewrite IH.
    + rewrite Join_cons by done. rewrite Join_cons in IH by done.
      by rewrite <- IH.
Qed.

Lemma Split_spaceless (s : string) :
  Forall spaceless (HttpHandlers.Split s).
Proof.
  induction s as [|c s IH]; cbn [HttpHandlers.Split].
  - by repeat constructor.
  - destruct (Ascii.eqb_spec c " "%char) as [->|Hc].
    + by constructor.
    + destruct (HttpHandlers.Split s) as [|piece pieces].
      * repeat constructor. unfold spaceless. cbn.
        by destruct (Ascii.eqb_spec c " "%char).
      * inversion IH as [|? ? Hp Hps]; subst. constructor; [|done].
        unfold spaceless in *. cbn.
        destruct (Ascii.eqb_spec c " "%char); [done|]. by rewrite Hp.
Qed.

Lemma Split_spaceless_piece (piece : string) :
  spaceless piece -> HttpHandlers.Split piece = [piece].
Proof.
  unfold spaceless. induction piece as [|c s IH]; [done|]. cbn.
  destruct (Ascii.eqb c " "%char); [done|].
  destruct (HttpHandlers.cut_space s) as [[]|]; [done|].
  intros _. by rewrite IH.
Qed.

Lemma Split_piece_space (piece rest : string) :
  spaceless piece ->
  HttpHandlers.Split (piece +:+ " " +:+ rest)
  = piece :: HttpHandlers.Split rest.
Proof.
  unfold spaceless. induction piece as [|c s IH]; intros Hsp; [done|].
  change (String c s +:+ " " +:+ rest) with (String c (s +:+ " " +:+ rest)).
  cbn [HttpHandlers.Split]. cbn [HttpHandlers.cut_space] in Hsp.
  destruct (Ascii.eqb c " "%char); [done|].
  destruct (HttpHandlers.cut_space s) as [[]|]; [done|].
  by rewrite IH.
Qed.

(** X23: splitting the scope string at its spaces loses nothing. The pieces
    joined by single spaces give the string back; no piece contains a space
    and there is always at least one piece, the empty piece for the empty
    string; and a non-empty list of pieces without spaces is what splitting
    its join gives. *)
Theorem Split_Join_inverse :
  (forall s, HttpHandlers.Join (HttpHandlers.Split s) = s /\
             HttpHandlers.Split s <> [] /\
             Forall spaceless (HttpHandlers.Split s)) /\
  (forall pieces, pieces <> [] -> Forall spaceless pieces ->
                  HttpHandlers.Split (HttpHandlers.Join pieces) = pieces).
Proof.
  split.
  - intros s. split; [apply Join_Split|].
    split; [apply Split_nonempty|apply Split_spaceless].
  - intros pieces Hne Hall.
    induction Hall as [|piece pieces Hp Hps IH]; [done|].
    destruct pieces as [|piece' pieces].
    + by apply Split_spaceless_piece.
    + rewrite Join_cons by done. rewrite Split_piece_space by done.
      by rewrite IH.
Qed.

Lemma Split_Join_inverse_witness :
  HttpHandlers.Split (HttpHandlers.Join ["server.start"; ""; "server.stop"])
  = ["server.start"; ""; "server.stop"].
Proof.
  apply (proj2 Split_Join_inverse); [done|].
  repeat constructor.
Defined.

(** ** The migration of the old servers *)

Lemma created_app (tr1 tr2 : list Migration.MEvent) :
  Migration.created (tr1 ++ tr2)
  = Migration.created tr1 ++ Migration.created tr2.
Proof. unfold Migration.created. apply omap_app. Qed.

Lemma created_migrate_one (fs : Migration.FS) (element : Migration.FileInfo) :
  Migration.created (Migration.migrate_one fs element)
  = match Migration.migrated fs element with
    | Some scales =>
        [(Migration.server_Name scales, Migration.Plugin scales,
          Migration.serverData scales)]
    | None => []
    end.
Proof.
  unfold Migration.migrate_one, Migration.migrated.
  destruct (Migration.IsDir element); [reflexivity|]. cbv zeta.
  destruct (Migration.ReadFile fs _) as [data|]; [|reflexivity].
  destruct (Migration.Unmarshal fs data) as [scales|]; [|reflexivity].
  destruct (Migration.Rename fs _ _); [reflexivity|].
  destruct (Migration.WalkChown fs _); reflexivity.
Qed.

Lemma migrate_all_app (fs : Migration.FS)
      (files1 files2 : list Migration.FileInfo) :
  Migration.migrate_all fs (files1 ++ files2)
  = Migration.migrate_all fs files1 ++ Migration.migrate_all fs files2.
Proof.
  induction files1 as [|element rest IH]; [reflexivity|].
  cbn. by rewrite IH, <- app_assoc.
Qed.

(** X24: the migration creates a server for exactly those files of the old
    data folder that are not directories and could be read, parsed, moved
    and handed to the daemon's user, in the order of the folder; a file that
    fails at any of these steps is skipped and changes nothing for the files
    after it. When the folder cannot be read, nothing is created. What is
    done for a list of files is what is done for its first part followed by
    what is done for the rest. *)
Theorem MigrateFromScales_creates (fs : Migration.FS) :
  Migration.created (Migration.MigrateFromScales fs)
  = match Migration.ReadDir fs Migration.Scales with
    | inl programFiles =>
        map (fun scales => (Migration.server_Name scales,
                            Migration.Plugin scales,
                            Migration.serverData scales))
            (omap (Migration.migrated fs) programFiles)
    | inr _ => []
    end /\
  forall files1 files2,
    Migration.migrate_all fs (files1 ++ files2)
    = Migration.migrate_all fs files1 ++ Migration.migrate_all fs files2.
Proof.
  split; [|apply migrate_all_app].
  unfold Migration.MigrateFromScales. rewrite created_app. cbn [app].
  change (Migration.created [Migration.MCopyTemplates;
                             Migration.MMkdirAll (Migration.ServerFolder fs)
                                                 perm_0755]) with
    (@nil (string * string * gmap string value)).
  cbn [app].
  destruct (Migration.ReadDir fs Migration.Scales) as [files|]; [|reflexivity].
  rewrite created_app. cbn. rewrite app_nil_r.
  induction files as [|element rest IH]; [reflexivity|].
  cbn [Migration.migrate_all omap list_omap]. rewrite created_app, created_migrate_one, IH.
  by destruct (Migration.migrated fs element).
Qed.

(** Of a directory, a config that cannot be parsed and a minecraft server,
    the last one is created, with its address, port and memory. *)
Example MigrateFromScales_sample :
  Migration.created (Migration.MigrateFromScales Migration.fs_sample)
  = [("mc1", "minecraft",
      <["memory" := VNumber 1024]>
        (<["port" := VNumber 25565]> (<["ip" := VString "10.0.0.7"]> ∅)))].
Proof. vm_compute. reflexivity. Qed.
